(** * code-agent-monitor: the data providers, embedded and verified

    The development embeds [src/providers/ClaudeDataProvider.ts] and
    [src/providers/CodexDataProvider.ts] (the class [CodexDataProvider],
    with [getSessions] and [parseSessionFile]).  The providers read files below
    [~/.claude] and [~/.codex]; the file system is an explicit finite map
    from path strings to nodes, exceptions are an explicit completion
    type, and the builtins of the host whose behaviour is not fixed by the
    repository ([JSON.parse], [Date] parsing, [String.prototype.trim],
    [path.basename], [toLocaleDateString], [os.homedir]) are the fields of
    the [Runtime] class.  Numbers are integers ([Z]); [NaN] only arises
    from invalid dates and is [None] in [number]. *)

From Stdlib Require Import ZArith Lia Ascii Sorted Permutation.
From stdpp Require Import base option list strings gmap pretty.

#[local] Open Scope Z_scope.
#[local] Open Scope string_scope.
#[local] Open Scope list_scope.

(** ** ECMAScript builtins used by the providers *)

Module JS.

(** A JS number that is either an integer or [NaN]. *)
Definition number := option Z.
Definition NaN : number := None.

(** [x - y] on numbers: [NaN] is contagious. *)
Definition sub (x y : number) : number :=
  match x, y with
  | Some a, Some b => Some (a - b)
  | _, _ => NaN
  end.

(** [x > y] on numbers: false as soon as one side is [NaN]. *)
Definition gt (x y : number) : bool :=
  match x, y with
  | Some a, Some b => bool_decide (a > b)
  | _, _ => false
  end.

(** [a || b] on a possibly undefined string: the empty string is falsy. *)
Definition or_string (a : option string) (b : string) : string :=
  match a with
  | Some s => if decide (s = "") then b else s
  | None => b
  end.

(** [n || 0] on an integer. *)
Definition or_zero (n : Z) : Z := if decide (n = 0) then 0 else n.

(** [s.includes(needle)] *)
Fixpoint includes (needle s : string) : bool :=
  if String.prefix needle s then true
  else match s with
       | EmptyString => false
       | String _ s' => includes needle s'
       end.

(** [s.split(sep)] for a one-character separator. *)
Fixpoint split (sep : ascii) (s : string) : list string :=
  match s with
  | EmptyString => [EmptyString]
  | String c s' =>
      if decide (c = sep) then EmptyString :: split sep s'
      else match split sep s' with
           | h :: t => String c h :: t
           | [] => [String c EmptyString]
           end
  end.

(** [s.replace(/c/g, d)] for single characters [c] and [d]. *)
Fixpoint replaceAll (c d : ascii) (s : string) : string :=
  match s with
  | EmptyString => EmptyString
  | String x s' => String (if decide (x = c) then d else x) (replaceAll c d s')
  end.

(** [s.endsWith(suffix)] *)
Definition endsWith (suffix s : string) : bool :=
  let n := String.length s in
  let k := String.length suffix in
  if decide (k <= n)%nat
  then bool_decide (String.substring (n - k) k s = suffix)
  else false.

(** [l.filter(Boolean)] on an array of strings. *)
Definition filterBoolean (l : list string) : list string :=
  filter (λ s, s ≠ "") l.

(** [l.slice(start)]: a negative [start] counts from the end, and both
    ends are clamped to the array. *)
Definition slice {A} (start : Z) (l : list A) : list A :=
  let len := Z.of_nat (length l) in
  let k := if decide (start < 0) then Z.max (len + start) 0
           else Z.min start len in
  drop (Z.to_nat k) l.

(** [l[i]] *)
Definition at_index {A} (l : list A) (i : Z) : option A :=
  if decide (0 <= i) then l !! Z.to_nat i else None.

(** [l.find(p)] *)
Definition find {A} (p : A → bool) (l : list A) : option A :=
  List.find p l.

(** [l.sort(comparefn)].  ECMAScript fixes the result for a consistent
    comparator: the stable sorted permutation.  The model is the stable
    insertion sort; a [NaN] from the comparator counts as [+0]
    (SortCompare). *)
Definition comes_after {A} (comparefn : A → A → number) (x y : A) : bool :=
  match comparefn x y with
  | Some v => bool_decide (0 < v)
  | None => false
  end.

Fixpoint sort_insert {A} (comparefn : A → A → number) (x : A) (l : list A)
  : list A :=
  match l with
  | [] => [x]
  | y :: l' =>
      if comes_after comparefn x y then y :: sort_insert comparefn x l'
      else x :: y :: l'
  end.

Definition sort {A} (comparefn : A → A → number) (l : list A) : list A :=
  foldr (sort_insert comparefn) [] l.

End JS.

(** ** Exceptions *)

Inductive Completion (A : Type) : Type :=
| Return (a : A)
| Throw.
Arguments Return {A} a.
Arguments Throw {A}.

Definition cbind {A B} (m : Completion A) (k : A → Completion B)
  : Completion B :=
  match m with
  | Return a => k a
  | Throw => Throw
  end.

Notation "x ←! m ; k" := (cbind m (λ x, k))
  (at level 20, m at level 100, k at level 200, right associativity,
   only parsing).

(** [JSON.parse] and friends throw where the model has [None]. *)
Definition orThrow {A} (o : option A) : Completion A :=
  match o with
  | Some a => Return a
  | None => Throw
  end.

(** [try { m } catch { return d }] *)
Definition tryCatch {A} (m : Completion A) (d : A) : A :=
  match m with
  | Return a => a
  | Throw => d
  end.

(** ** The file system *)

Module Fs.

(** A [fs.Dirent]. *)
Record Dirent := mkDirent { name : string; isDirectory : bool }.

Inductive Node :=
| File (content : string)
| Directory (entries : list Dirent).

(** The state of the disk: what is found at each path. *)
Abbreviation Disk := (gmap string Node).

Definition existsSync (fs : Disk) (p : string) : bool :=
  bool_decide (is_Some (fs !! p)).

(** [fs.readFileSync(p, 'utf-8')]: throws unless [p] is a file. *)
Definition readFileSync (fs : Disk) (p : string) : Completion string :=
  match fs !! p with
  | Some (File c) => Return c
  | _ => Throw
  end.

(** [fs.readdirSync(p, { withFileTypes: true })]: throws unless [p] is a
    directory. *)
Definition readdirSync (fs : Disk) (p : string) : Completion (list Dirent) :=
  match fs !! p with
  | Some (Directory es) => Return es
  | _ => Throw
  end.

(** [fs.statSync(p).size]: the byte length of a file.  The size of a
    directory depends on the file system; the providers only stat paths
    they have just read as files. *)
Definition statSize (fs : Disk) (p : string) : Completion Z :=
  match fs !! p with
  | Some (File c) => Return (Z.of_nat (String.length c))
  | Some (Directory _) => Return 0
  | None => Throw
  end.

(** [path.join(a, b)] for a normalised [a] and a plain segment [b]. *)
Definition join (a b : string) : string := a +:+ "/" +:+ b.

End Fs.

(** ** The data model ([src/types.ts] and the interfaces of
    [CodexDataProvider.ts]) *)

Module ClaudeSession.
Record t := mk {
  sessionId : string;
  fullPath : string;
  fileMtime : Z;
  messageCount : Z;
  created : string;
  modified : string;
  gitBranch : option string;
  projectPath : string;
}.
End ClaudeSession.

Module SessionsIndex.
Record t := mk {
  version : Z;
  entries : option (list ClaudeSession.t);
  sessions : option (list ClaudeSession.t);
  originalPath : option string;
}.
End SessionsIndex.

Module DailyActivity.
Record t := mk {
  date : string;
  messageCount : Z;
  sessionCount : Z;
  toolCallCount : Z;
}.
End DailyActivity.

(** [getTodayStats] reads the per-model totals of a day from the field
    [tokensByModel], an object from model names to token counts; the
    association list is that object in the order of [Object.values]. *)
Module DailyModelTokens.
Record t := mk {
  date : string;
  tokensByModel : option (list (string * Z));
}.
End DailyModelTokens.

Module TokenUsage.
Record t := mk {
  inputTokens : Z;
  outputTokens : Z;
  cacheReadInputTokens : Z;
  cacheCreationInputTokens : Z;
}.
End TokenUsage.

(** [modelUsage] is an object; the association list is the object in the
    order of [Object.entries].  The providers test [dailyActivity],
    [dailyModelTokens] and [modelUsage] for presence, so they are
    optional here. *)
Module ClaudeStats.
Record t := mk {
  version : Z;
  lastComputedDate : string;
  dailyActivity : option (list DailyActivity.t);
  dailyModelTokens : option (list DailyModelTokens.t);
  modelUsage : option (list (string * TokenUsage.t));
  totalSessions : Z;
  totalMessages : Z;
}.
End ClaudeStats.

Module HistoryEntry.
Record t := mk {
  display : string;
  timestamp : Z;
  project : option string;
  sessionId : option string;
}.
End HistoryEntry.

(** [lastModified] is a [Date] that is always valid: it starts as
    [new Date(0)] and is only replaced by a date that compared greater. *)
Module ProjectInfo.
Record t := mk {
  name : string;
  path : string;
  escapedPath : string;
  sessions : list ClaudeSession.t;
  totalMessages : Z;
  lastModified : Z;
}.
End ProjectInfo.

Module TodayStats.
Record t := mk {
  messages : Z;
  sessions : Z;
  toolCalls : Z;
  totalTokens : Z;
  date : string;
}.
End TodayStats.

Module ModelTotals.
Record t := mk { input : Z; output : Z }.
End ModelTotals.

Module CodexSession.
Record t := mk {
  id : string;
  timestamp : string;
  cwd : string;
  model_provider : string;
  cli_version : string;
  source : string;
  filePath : string;
  fileSize : Z;
}.
End CodexSession.

(** The first event of a Codex transcript, as far as [parseSessionFile]
    looks at it: [type] is [None] when absent or not a string, [payload]
    is [None] when absent or falsy. *)
Module SessionMeta.
Record t := mk {
  id : string;
  timestamp : string;
  cwd : string;
  model_provider : option string;
  cli_version : string;
  source : option string;
}.
End SessionMeta.

Module FirstEvent.
Record t := mk {
  type : option string;
  payload : option SessionMeta.t;
}.
End FirstEvent.

(** ** The host

    [None] from a [JSON_parse_*] field stands for every way the
    corresponding [JSON.parse(...)] followed by the first property access
    throws (a syntax error, or the value [null]); [Date_getTime s] is
    [new Date(s).getTime()], [None] for an invalid date. *)
Class Runtime := {
  os_homedir : string;
  path_basename : string → string;
  String_trim : string → string;
  JSON_parse_SessionsIndex : string → option SessionsIndex.t;
  JSON_parse_ClaudeStats : string → option ClaudeStats.t;
  JSON_parse_HistoryEntry : string → option HistoryEntry.t;
  JSON_parse_FirstEvent : string → option FirstEvent.t;
  Date_getTime : string → JS.number;
  Date_toLocaleDateString : Z → string;
}.

(** ** [ClaudeDataProvider] *)

Module ClaudeDataProvider.
Section provider.
Context `{Runtime}.

Definition claudeDir : string := Fs.join os_homedir ".claude".

Definition getShortModelName (fullName : string) : string :=
  if JS.includes "opus" fullName then "Opus"
  else if JS.includes "sonnet" fullName then "Sonnet"
  else if JS.includes "haiku" fullName then "Haiku"
  else default "" (head (JS.split "-" fullName)).

Definition unescapePath (escapedPath : string) : string :=
  JS.replaceAll "-" "/" escapedPath.

(** The comparator of [sessions.sort(...)] in [getProjects]. *)
Definition bySessionModified (a b : ClaudeSession.t) : JS.number :=
  JS.sub (Date_getTime (ClaudeSession.modified b))
         (Date_getTime (ClaudeSession.modified a)).

(** The comparator of [projects.sort(...)] in [getProjects]. *)
Definition byLastModified (a b : ProjectInfo.t) : JS.number :=
  JS.sub (Some (ProjectInfo.lastModified b)) (Some (ProjectInfo.lastModified a)).

(** One turn of the loop that computes [lastModified]. *)
Definition laterOf (lastModified : Z) (session : ClaudeSession.t) : Z :=
  let modified := Date_getTime (ClaudeSession.modified session) in
  if JS.gt modified (Some lastModified) then default lastModified modified
  else lastModified.

(** The body of the [try] block of [getProjects] for one directory. *)
Definition readProject (fs : Fs.Disk) (entry : Fs.Dirent) (indexPath : string)
  : Completion ProjectInfo.t :=
  indexContent ←! Fs.readFileSync fs indexPath;
  index ←! orThrow (JSON_parse_SessionsIndex indexContent);
  let projectPath :=
    JS.or_string (SessionsIndex.originalPath index)
                 (unescapePath (Fs.name entry)) in
  let projectName := path_basename projectPath in
  let sessions :=
    match SessionsIndex.entries index with
    | Some l => l
    | None => default [] (SessionsIndex.sessions index)
    end in
  let totalMessages :=
    foldl (λ sum s, sum + ClaudeSession.messageCount s) 0 sessions in
  let lastModified := foldl laterOf 0 sessions in
  Return {|
    ProjectInfo.name := projectName;
    ProjectInfo.path := projectPath;
    ProjectInfo.escapedPath := Fs.name entry;
    ProjectInfo.sessions := JS.sort bySessionModified sessions;
    ProjectInfo.totalMessages := totalMessages;
    ProjectInfo.lastModified := lastModified;
  |}.

(** One turn of the loop over the entries of the projects directory. *)
Definition visitEntry (fs : Fs.Disk) (projectsDir : string)
    (projects : list ProjectInfo.t) (entry : Fs.Dirent) : list ProjectInfo.t :=
  if negb (Fs.isDirectory entry) then projects
  else
    let indexPath :=
      Fs.join (Fs.join projectsDir (Fs.name entry)) "sessions-index.json" in
    if negb (Fs.existsSync fs indexPath) then projects
    else
      match readProject fs entry indexPath with
      | Return project => projects ++ [project]
      | Throw => projects
      end.

Definition getProjects (fs : Fs.Disk) : Completion (list ProjectInfo.t) :=
  let projectsDir := Fs.join claudeDir "projects" in
  if negb (Fs.existsSync fs projectsDir) then Return []
  else
    entries ←! Fs.readdirSync fs projectsDir;
    let projects := foldl (visitEntry fs projectsDir) [] entries in
    Return (JS.sort byLastModified projects).

Definition getStats (fs : Fs.Disk) : option ClaudeStats.t :=
  let statsPath := Fs.join claudeDir "stats-cache.json" in
  if negb (Fs.existsSync fs statsPath) then None
  else
    tryCatch (content ←! Fs.readFileSync fs statsPath;
              Return (JSON_parse_ClaudeStats content))
             None.

(** One turn of the loop over the selected lines of the history. *)
Definition pushParsed (entries : list HistoryEntry.t) (line : string)
  : list HistoryEntry.t :=
  match JSON_parse_HistoryEntry line with
  | Some entry => entries ++ [entry]
  | None => entries
  end.

Definition historyLines (content : string) : list string :=
  JS.filterBoolean (JS.split "010" (String_trim content)).

Definition getRecentHistory (fs : Fs.Disk) (limit : Z) : list HistoryEntry.t :=
  let historyPath := Fs.join claudeDir "history.jsonl" in
  if negb (Fs.existsSync fs historyPath) then []
  else
    tryCatch (content ←! Fs.readFileSync fs historyPath;
              let lines := historyLines content in
              let entries := foldl pushParsed [] (JS.slice (- limit) lines) in
              Return (reverse entries))
             [].

(** [getRecentHistory()] with the default [limit = 20]. *)
Definition getRecentHistory_default (fs : Fs.Disk) : list HistoryEntry.t :=
  getRecentHistory fs 20.

(** The sum of [Object.values(tokenData.tokensByModel)]. *)
Definition sumTokens (tokensByModel : list (string * Z)) : Z :=
  foldl (λ totalTokens entry, totalTokens + JS.or_zero entry.2) 0 tokensByModel.

(** [today] is [new Date().toISOString().split('T')[0]]. *)
Definition getTodayStats (fs : Fs.Disk) (today : string) : TodayStats.t :=
  let zero := TodayStats.mk 0 0 0 0 today in
  match getStats fs with
  | None => zero
  | Some stats =>
    match ClaudeStats.dailyActivity stats with
    | None => zero
    | Some dailyActivity =>
      if decide (length dailyActivity = 0%nat) then zero
      else
        let isToday_a d := bool_decide (DailyActivity.date d = today) in
        let isToday_t d := bool_decide (DailyModelTokens.date d = today) in
        let activity := JS.find isToday_a dailyActivity in
        let tokenData := ClaudeStats.dailyModelTokens stats ≫= JS.find isToday_t in
        let '(activity, tokenData, dateLabel) :=
          match activity with
          | Some _ => (activity, tokenData, today)
          | None =>
              let activity :=
                JS.at_index dailyActivity (Z.of_nat (length dailyActivity) - 1) in
              let tokenData :=
                ClaudeStats.dailyModelTokens stats ≫=
                  (λ l, JS.at_index l (Z.of_nat (length l) - 1)) in
              (activity, tokenData,
               JS.or_string (DailyActivity.date <$> activity) today)
          end in
        let totalTokens :=
          match tokenData ≫= DailyModelTokens.tokensByModel with
          | Some tokensByModel => sumTokens tokensByModel
          | None => 0
          end in
        {| TodayStats.messages :=
             from_option (λ a, JS.or_zero (DailyActivity.messageCount a)) 0 activity;
           TodayStats.sessions :=
             from_option (λ a, JS.or_zero (DailyActivity.sessionCount a)) 0 activity;
           TodayStats.toolCalls :=
             from_option (λ a, JS.or_zero (DailyActivity.toolCallCount a)) 0 activity;
           TodayStats.totalTokens := totalTokens;
           TodayStats.date := dateLabel |}
    end
  end.

(** One turn of the loop over [Object.entries(stats.modelUsage)]. *)
Definition recordUsage (result : gmap string ModelTotals.t)
    (entry : string * TokenUsage.t) : gmap string ModelTotals.t :=
  let shortName := getShortModelName entry.1 in
  <[shortName := {| ModelTotals.input := JS.or_zero (TokenUsage.inputTokens entry.2);
                    ModelTotals.output := JS.or_zero (TokenUsage.outputTokens entry.2) |}]>
    result.

Definition getModelUsage (fs : Fs.Disk) : gmap string ModelTotals.t :=
  match getStats fs ≫= ClaudeStats.modelUsage with
  | None => ∅
  | Some modelUsage => foldl recordUsage ∅ modelUsage
  end.

(** [now] is [new Date().getTime()] and [date] is [date.getTime()]. *)
Definition formatRelativeTime (now date : Z) : string :=
  let diffMs := now - date in
  let diffMins := diffMs `div` 60000 in
  let diffHours := diffMs `div` 3600000 in
  let diffDays := diffMs `div` 86400000 in
  if decide (diffMins < 1) then "just now"
  else if decide (diffMins < 60) then pretty diffMins +:+ "m ago"
  else if decide (diffHours < 24) then pretty diffHours +:+ "h ago"
  else if decide (diffDays < 7) then pretty diffDays +:+ "d ago"
  else Date_toLocaleDateString date.

End provider.
End ClaudeDataProvider.

(** ** [CodexDataProvider] *)

(** The loops of [getSessions] push onto [sessions] inside one [try]
    block: an exception ends the walk and leaves what was pushed. *)
Module Scan.
Definition t (A : Type) : Type :=
  list CodexSession.t → list CodexSession.t * Completion A.

Definition ret {A} (a : A) : t A := λ sessions, (sessions, Return a).

Definition bind {A B} (m : t A) (k : A → t B) : t B :=
  λ sessions,
    match m sessions with
    | (sessions', Return a) => k a sessions'
    | (sessions', Throw) => (sessions', Throw)
    end.

Definition lift {A} (c : Completion A) : t A := λ sessions, (sessions, c).

Definition push (session : CodexSession.t) : t unit :=
  λ sessions, (sessions ++ [session], Return tt).

Fixpoint forEach {A} (l : list A) (body : A → t unit) : t unit :=
  match l with
  | [] => ret tt
  | x :: l' => bind (body x) (λ _, forEach l' body)
  end.

(** [try { m } catch { }], then the pushed sessions. *)
Definition run {A} (m : t A) : list CodexSession.t := (m []).1.
End Scan.

Notation "x ←$ m ; k" := (Scan.bind m (λ x, k))
  (at level 20, m at level 100, k at level 200, right associativity,
   only parsing).

Module CodexDataProvider.
Section provider.
Context `{Runtime}.

Definition codexDir : string := Fs.join os_homedir ".codex".

Definition isAvailable (fs : Fs.Disk) : bool := Fs.existsSync fs codexDir.

Definition parseSessionFile (fs : Fs.Disk) (filePath : string)
  : option CodexSession.t :=
  tryCatch
    (content ←! Fs.readFileSync fs filePath;
     let firstLine := default "" (head (JS.split "010" content)) in
     firstEvent ←! orThrow (JSON_parse_FirstEvent firstLine);
     if bool_decide (FirstEvent.type firstEvent = Some "session_meta") then
       match FirstEvent.payload firstEvent with
       | Some meta =>
           size ←! Fs.statSize fs filePath;
           Return (Some {|
             CodexSession.id := SessionMeta.id meta;
             CodexSession.timestamp := SessionMeta.timestamp meta;
             CodexSession.cwd := SessionMeta.cwd meta;
             CodexSession.model_provider :=
               JS.or_string (SessionMeta.model_provider meta) "openai";
             CodexSession.cli_version := SessionMeta.cli_version meta;
             CodexSession.source := JS.or_string (SessionMeta.source meta) "cli";
             CodexSession.filePath := filePath;
             CodexSession.fileSize := size |})
       | None => Return None
       end
     else Return None)
    None.

(** The comparator of [sessions.sort(...)] in [getSessions]. *)
Definition byTimestamp (a b : CodexSession.t) : JS.number :=
  JS.sub (Date_getTime (CodexSession.timestamp b))
         (Date_getTime (CodexSession.timestamp a)).

Definition scanFile (fs : Fs.Disk) (dayPath file : string) : Scan.t unit :=
  if negb (JS.endsWith ".jsonl" file) then Scan.ret tt
  else
    let filePath := Fs.join dayPath file in
    match parseSessionFile fs filePath with
    | Some session => Scan.push session
    | None => Scan.ret tt
    end.

Definition scanDay (fs : Fs.Disk) (monthPath : string) (day : Fs.Dirent)
  : Scan.t unit :=
  if negb (Fs.isDirectory day) then Scan.ret tt
  else
    let dayPath := Fs.join monthPath (Fs.name day) in
    files ←$ Scan.lift (Fs.readdirSync fs dayPath);
    Scan.forEach (Fs.name <$> files) (scanFile fs dayPath).

Definition scanMonth (fs : Fs.Disk) (yearPath : string) (month : Fs.Dirent)
  : Scan.t unit :=
  if negb (Fs.isDirectory month) then Scan.ret tt
  else
    let monthPath := Fs.join yearPath (Fs.name month) in
    days ←$ Scan.lift (Fs.readdirSync fs monthPath);
    Scan.forEach days (scanDay fs monthPath).

Definition scanYear (fs : Fs.Disk) (sessionsDir : string) (year : Fs.Dirent)
  : Scan.t unit :=
  if negb (Fs.isDirectory year) then Scan.ret tt
  else
    let yearPath := Fs.join sessionsDir (Fs.name year) in
    months ←$ Scan.lift (Fs.readdirSync fs yearPath);
    Scan.forEach months (scanMonth fs yearPath).

Definition getSessions (fs : Fs.Disk) : list CodexSession.t :=
  let sessionsDir := Fs.join codexDir "sessions" in
  if negb (Fs.existsSync fs sessionsDir) then []
  else
    let sessions :=
      Scan.run (years ←$ Scan.lift (Fs.readdirSync fs sessionsDir);
                Scan.forEach years (scanYear fs sessionsDir)) in
    JS.sort byTimestamp sessions.

End provider.
End CodexDataProvider.

(** ** Notions the properties are stated with *)

(** Modelled from the spec: the escaping that turns a working-directory
    path into the name of its project directory is done by the agent CLI
    and is missing from the repository; the spec calls it a
    "filesystem-safe path-escaping scheme" that replaces the separator
    characters, which [unescapePath] restores from ["-"]. *)
Definition escapePath (projectPath : string) : string :=
  JS.replaceAll "/" "-" projectPath.

(** The path has no occurrence of the character [c]. *)
Fixpoint freeOf (c : ascii) (s : string) : Prop :=
  match s with
  | EmptyString => True
  | String x s' => x ≠ c ∧ freeOf c s'
  end.

(** [a] comes no earlier than [b] under the key [key], both keys being
    numbers. *)
Definition notBefore {A} (key : A → JS.number) (a b : A) : Prop :=
  ∃ x y, key a = Some x ∧ key b = Some y ∧ y <= x.

(** A sequence is non-increasing by [key]. *)
Definition nonIncreasingBy {A} (key : A → JS.number) (l : list A) : Prop :=
  StronglySorted (notBefore key) l.

(** Every element has a number as key. *)
Definition keyed {A} (key : A → JS.number) (l : list A) : Prop :=
  Forall (λ a, is_Some (key a)) l.

(** The sum of the message counts of a session list. *)
Definition sumMessageCount (l : list ClaudeSession.t) : Z :=
  foldr (λ s acc, ClaudeSession.messageCount s + acc) 0 l.

(** The sum of the per-model token counts of a day. *)
Definition sumCounts (tokensByModel : list (string * Z)) : Z :=
  foldr (λ entry acc, entry.2 + acc) 0 tokensByModel.

(** The chronologically last entry of a daily-activity list: the one with
    the greatest ISO date (the later position wins among equal dates). *)
Definition chronologicallyLast (l : list DailyActivity.t)
  : option DailyActivity.t :=
  foldl (λ best d,
           match best with
           | None => Some d
           | Some b =>
               if String.leb (DailyActivity.date b) (DailyActivity.date d)
               then Some d else Some b
           end) None l.

(** The list is in chronological order. *)
Definition chronological (l : list DailyActivity.t) : Prop :=
  Sorted (λ a b, String.leb (DailyActivity.date a) (DailyActivity.date b) = true) l.

(** The per-model counts recorded for the date [date]: those of the first
    entry of that date, nothing when there is none. *)
Definition tokensOn (date : string) (stats : ClaudeStats.t) : list (string * Z) :=
  match ClaudeStats.dailyModelTokens stats with
  | Some l =>
      match JS.find (λ d, bool_decide (DailyModelTokens.date d = date)) l with
      | Some d => default [] (DailyModelTokens.tokensByModel d)
      | None => []
      end
  | None => []
  end.

(** The first line of a transcript carries session metadata under the
    recognised envelope: it parses, its type is ['session_meta'] and it
    has a payload. *)
Definition recognised `{Runtime} (firstLine : string) : Prop :=
  ∃ ev meta, JSON_parse_FirstEvent firstLine = Some ev
             ∧ FirstEvent.type ev = Some "session_meta"
             ∧ FirstEvent.payload ev = Some meta.

Definition firstLineOf (content : string) : string :=
  default "" (head (JS.split "010" content)).

(** The sort keys of the three sorted outputs. *)
Definition modifiedTime `{Runtime} (s : ClaudeSession.t) : JS.number :=
  Date_getTime (ClaudeSession.modified s).


Definition timestampTime `{Runtime} (s : CodexSession.t) : JS.number :=
  Date_getTime (CodexSession.timestamp s).

(** A property of the pushed sessions that a scan keeps. *)
Definition keeps {A} (P : list CodexSession.t → Prop) (m : Scan.t A) : Prop :=
  ∀ sessions, P sessions → P (m sessions).1.

(** Every session of the list was parsed from the file it names. *)
Definition parsedFrom `{Runtime} (fs : Fs.Disk) (sessions : list CodexSession.t)
  : Prop :=
  ∀ s, s ∈ sessions →
       CodexDataProvider.parseSessionFile fs (CodexSession.filePath s) = Some s.

(** ** A concrete host and concrete disks, to run the providers on *)

Module Example.

Definition session (id : string) (count : Z) (modified : string)
  : ClaudeSession.t :=
  {| ClaudeSession.sessionId := id;
     ClaudeSession.fullPath := "/home/dev/.claude/projects/-home-dev-app/" +:+ id;
     ClaudeSession.fileMtime := 0;
     ClaudeSession.messageCount := count;
     ClaudeSession.created := modified;
     ClaudeSession.modified := modified;
     ClaudeSession.gitBranch := None;
     ClaudeSession.projectPath := "/home/dev/app" |}.

Definition index_app : SessionsIndex.t :=
  {| SessionsIndex.version := 1;
     SessionsIndex.entries :=
       Some [session "s1" 4 "2024-01-02"; session "s2" 9 "2024-01-05";
             session "s3" 1 "2024-01-03"];
     SessionsIndex.sessions := None;
     SessionsIndex.originalPath := None |}.

Definition index_lib : SessionsIndex.t :=
  {| SessionsIndex.version := 1;
     SessionsIndex.entries := None;
     SessionsIndex.sessions := Some [session "t1" 2 "2024-01-04"];
     SessionsIndex.originalPath := Some "/home/dev/my-lib" |}.

Definition day (date : string) (m s t : Z) : DailyActivity.t :=
  {| DailyActivity.date := date; DailyActivity.messageCount := m;
     DailyActivity.sessionCount := s; DailyActivity.toolCallCount := t |}.

Definition tokens (date : string) (byModel : list (string * Z))
  : DailyModelTokens.t :=
  {| DailyModelTokens.date := date;
     DailyModelTokens.tokensByModel := Some byModel |}.

Definition usage (i o : Z) : TokenUsage.t :=
  {| TokenUsage.inputTokens := i; TokenUsage.outputTokens := o;
     TokenUsage.cacheReadInputTokens := 0;
     TokenUsage.cacheCreationInputTokens := 0 |}.

Definition stats (activity : list DailyActivity.t)
    (byDay : list DailyModelTokens.t) (byModel : list (string * TokenUsage.t))
  : ClaudeStats.t :=
  {| ClaudeStats.version := 1;
     ClaudeStats.lastComputedDate := "2024-01-05";
     ClaudeStats.dailyActivity := Some activity;
     ClaudeStats.dailyModelTokens := Some byDay;
     ClaudeStats.modelUsage := Some byModel;
     ClaudeStats.totalSessions := 0;
     ClaudeStats.totalMessages := 0 |}.

(** Five days in order, with tokens for each of them. *)
Definition stats_week : ClaudeStats.t :=
  stats [day "2024-01-01" 3 1 0; day "2024-01-02" 5 1 2; day "2024-01-03" 8 2 4;
         day "2024-01-04" 2 1 1; day "2024-01-05" 7 2 3]
        [tokens "2024-01-04" [("claude-opus-4-20250101", 40)];
         tokens "2024-01-05" [("claude-opus-4-20250101", 50);
                              ("claude-haiku-3", 6)]]
        [("claude-opus-4-20250101", usage 100 10);
         ("claude-opus-4-20250215", usage 20 2);
         ("claude-sonnet-4", usage 7 1)].

(** The later day comes first in the list. *)
Definition stats_unordered : ClaudeStats.t :=
  stats [day "2024-01-05" 7 2 3; day "2024-01-03" 8 2 4] [] [].

(** The only entry has an empty date. *)
Definition stats_undated : ClaudeStats.t :=
  stats [day "" 7 2 3] [] [].

(** The token list ends one day after the activity list. *)
Definition stats_misaligned : ClaudeStats.t :=
  stats [day "2024-01-04" 2 1 1; day "2024-01-05" 7 2 3]
        [tokens "2024-01-05" [("claude-opus-4-20250101", 50)];
         tokens "2024-01-06" [("claude-opus-4-20250101", 100)]]
        [].

Definition meta (id timestamp : string) : SessionMeta.t :=
  {| SessionMeta.id := id; SessionMeta.timestamp := timestamp;
     SessionMeta.cwd := "/home/dev/app"; SessionMeta.model_provider := None;
     SessionMeta.cli_version := "0.1"; SessionMeta.source := None |}.

Definition entry (display : string) (timestamp : Z) : HistoryEntry.t :=
  {| HistoryEntry.display := display; HistoryEntry.timestamp := timestamp;
     HistoryEntry.project := None; HistoryEntry.sessionId := None |}.

(** File contents are short tags; the parsers of this host decode the
    tags they know and fail on everything else. *)
Definition host (stats : ClaudeStats.t) : Runtime :=
  {| os_homedir := "/home/dev";
     path_basename := λ p, default "" (last (JS.split "/" p));
     String_trim := λ s, s;
     JSON_parse_SessionsIndex := λ content,
       if decide (content = "index:app") then Some index_app
       else if decide (content = "index:lib") then Some index_lib
       else None;
     JSON_parse_ClaudeStats := λ content,
       if decide (content = "stats") then Some stats else None;
     JSON_parse_HistoryEntry := λ line,
       if decide (line = "h1") then Some (entry "first" 1)
       else if decide (line = "h2") then Some (entry "second" 2)
       else if decide (line = "h3") then Some (entry "third" 3)
       else None;
     JSON_parse_FirstEvent := λ line,
       if decide (line = "meta:a") then
         Some (FirstEvent.mk (Some "session_meta") (Some (meta "a" "2024-01-02")))
       else if decide (line = "meta:b") then
         Some (FirstEvent.mk (Some "session_meta") (Some (meta "b" "2024-01-05")))
       else if decide (line = "not_session_meta") then
         Some (FirstEvent.mk (Some "not_session_meta") None)
       else None;
     Date_getTime := λ s,
       if decide (s = "2024-01-02") then Some 1704153600000
       else if decide (s = "2024-01-03") then Some 1704240000000
       else if decide (s = "2024-01-04") then Some 1704326400000
       else if decide (s = "2024-01-05") then Some 1704412800000
       else None;
     Date_toLocaleDateString := λ _, "1/5/2024" |}.

Definition dir (names : list (string * bool)) : Fs.Node :=
  Fs.Directory ((λ e, Fs.mkDirent e.1 e.2) <$> names).

Definition disk : Fs.Disk :=
  list_to_map
    [("/home/dev/.claude/projects",
        dir [("-home-dev-app", true); ("-home-dev-my-lib", true);
             ("notes.txt", false); ("-home-dev-empty", true)]);
     ("/home/dev/.claude/projects/-home-dev-app/sessions-index.json",
        Fs.File "index:app");
     ("/home/dev/.claude/projects/-home-dev-my-lib/sessions-index.json",
        Fs.File "index:lib");
     ("/home/dev/.claude/stats-cache.json", Fs.File "stats");
     ("/home/dev/.claude/history.jsonl",
        Fs.File ("h1" +:+ String "010" ("broken" +:+ String "010" ("h2"
                 +:+ String "010" "h3"))));
     ("/home/dev/.codex/sessions", dir [("2024", true)]);
     ("/home/dev/.codex/sessions/2024", dir [("01", true)]);
     ("/home/dev/.codex/sessions/2024/01", dir [("02", true); ("05", true)]);
     ("/home/dev/.codex/sessions/2024/01/02",
        dir [("a.jsonl", false); ("x.jsonl", false); ("readme.md", false)]);
     ("/home/dev/.codex/sessions/2024/01/05", dir [("b.jsonl", false)]);
     ("/home/dev/.codex/sessions/2024/01/02/a.jsonl",
        Fs.File ("meta:a" +:+ String "010" "rest"));
     ("/home/dev/.codex/sessions/2024/01/02/x.jsonl",
        Fs.File ("not_session_meta" +:+ String "010" "rest"));
     ("/home/dev/.codex/sessions/2024/01/05/b.jsonl", Fs.File "meta:b")].

(** The projects of the example disk, and the first of them. *)
Definition projects : list ProjectInfo.t :=
  tryCatch (ClaudeDataProvider.getProjects (H := host stats_week) disk) [].

Definition project_app : ProjectInfo.t :=
  default (ProjectInfo.mk "" "" "" [] 0 0) (head projects).

End Example.

(** ** The aggregations on top of the scanners

    The remaining methods of [CodexDataProvider] ([getProjects],
    [getRecentStats], [formatRelativeTime]) and the two computations of
    [DashboardPanel] that combine the providers ([mergeProjects] and the
    token total of [getHtmlContent]). *)

(** A [Map] with string keys: its entries in insertion order.  [set] on a
    key that is present replaces the value where it stands. *)
Module JSMap.

Abbreviation t V := (list (string * V)).

Fixpoint get {V} (m : t V) (k : string) : option V :=
  match m with
  | [] => None
  | (k', v) :: m' => if decide (k' = k) then Some v else get m' k
  end.

Definition has {V} (m : t V) (k : string) : bool :=
  bool_decide (is_Some (get m k)).

Fixpoint set {V} (m : t V) (k : string) (v : V) : t V :=
  match m with
  | [] => [(k, v)]
  | (k', v') :: m' =>
      if decide (k' = k) then (k, v) :: m' else (k', v') :: set m' k v
  end.

(** [Array.from(m.values())] *)
Definition values {V} (m : t V) : list V := m.*2.

End JSMap.

Module CodexProjectInfo.
Record t := mk {
  name : string;
  path : string;
  sessions : list CodexSession.t;
  totalSessions : Z;
  lastModified : Z;
}.
End CodexProjectInfo.

Module RecentStats.
Record t := mk {
  totalSessions : Z;
  recentSessions : Z;
  providers : list string;
}.
End RecentStats.

(** The methods of [CodexDataProvider] that work on the scanned
    sessions. *)
Module CodexAggregates.
Section provider.
Context `{Runtime}.

(** The comparator of the final [sort] of [getProjects]. *)
Definition byLastModified (a b : CodexProjectInfo.t) : JS.number :=
  JS.sub (Some (CodexProjectInfo.lastModified b))
         (Some (CodexProjectInfo.lastModified a)).

(** The update of [project.lastModified] for one session. *)
Definition laterOf (lastModified : Z) (session : CodexSession.t) : Z :=
  let sessionDate := Date_getTime (CodexSession.timestamp session) in
  if JS.gt sessionDate (Some lastModified) then default lastModified sessionDate
  else lastModified.

(** One turn of the loop of [getProjects]: the project of the session is
    created when its path is new, then receives the session. *)
Definition groupSession (projectMap : JSMap.t CodexProjectInfo.t)
    (session : CodexSession.t) : JSMap.t CodexProjectInfo.t :=
  let projectPath := CodexSession.cwd session in
  let projectName := path_basename projectPath in
  let projectMap :=
    if negb (JSMap.has projectMap projectPath) then
      JSMap.set projectMap projectPath
        {| CodexProjectInfo.name := projectName;
           CodexProjectInfo.path := projectPath;
           CodexProjectInfo.sessions := [];
           CodexProjectInfo.totalSessions := 0;
           CodexProjectInfo.lastModified := 0 |}
    else projectMap in
  match JSMap.get projectMap projectPath with
  | Some project =>
      JSMap.set projectMap projectPath
        {| CodexProjectInfo.name := CodexProjectInfo.name project;
           CodexProjectInfo.path := CodexProjectInfo.path project;
           CodexProjectInfo.sessions :=
             CodexProjectInfo.sessions project ++ [session];
           CodexProjectInfo.totalSessions :=
             CodexProjectInfo.totalSessions project + 1;
           CodexProjectInfo.lastModified :=
             laterOf (CodexProjectInfo.lastModified project) session |}
  | None => projectMap
  end.

Definition getProjects (fs : Fs.Disk) : list CodexProjectInfo.t :=
  let sessions := CodexDataProvider.getSessions fs in
  let projectMap := foldl groupSession [] sessions in
  JS.sort byLastModified (JSMap.values projectMap).

(** [[...new Set(l)]]: the distinct elements in the order of their first
    occurrence. *)
Definition distinct (l : list string) : list string :=
  foldl (λ seen x, if bool_decide (x ∈ seen) then seen else seen ++ [x]) [] l.

(** [now] is [new Date().getTime()]. *)
Definition getRecentStats (fs : Fs.Disk) (now : Z) : RecentStats.t :=
  let sessions := CodexDataProvider.getSessions fs in
  let weekAgo := now - 7 * 24 * 60 * 60 * 1000 in
  let recentSessions :=
    length (filter (λ s, JS.gt (Date_getTime (CodexSession.timestamp s))
                               (Some weekAgo) = true) sessions) in
  let providers := distinct (CodexSession.model_provider <$> sessions) in
  {| RecentStats.totalSessions := Z.of_nat (length sessions);
     RecentStats.recentSessions := Z.of_nat recentSessions;
     RecentStats.providers := providers |}.

(** [formatRelativeTime] of [CodexDataProvider]. *)
Definition formatRelativeTime (now date : Z) : string :=
  let diffMs := now - date in
  let diffMins := diffMs `div` 60000 in
  let diffHours := diffMs `div` 3600000 in
  let diffDays := diffMs `div` 86400000 in
  if decide (diffMins < 1) then "just now"
  else if decide (diffMins < 60) then pretty diffMins +:+ "m ago"
  else if decide (diffHours < 24) then pretty diffHours +:+ "h ago"
  else if decide (diffDays < 7) then pretty diffDays +:+ "d ago"
  else Date_toLocaleDateString date.

End provider.
End CodexAggregates.

Module DashboardPanel.

(** A project of the merged list: the project with its [source] marker;
    [sortDate] is its [lastModified]. *)
Inductive MergedProject :=
| claude (project : ProjectInfo.t)
| codex (project : CodexProjectInfo.t).

Definition sortDate (p : MergedProject) : Z :=
  match p with
  | claude project => ProjectInfo.lastModified project
  | codex project => CodexProjectInfo.lastModified project
  end.

(** The comparator of [merged.sort(...)]. *)
Definition bySortDate (a b : MergedProject) : JS.number :=
  JS.sub (Some (sortDate b)) (Some (sortDate a)).

Definition mergeProjects (claudeProjects : list ProjectInfo.t)
    (codexProjects : list CodexProjectInfo.t) : list MergedProject :=
  let merged := (claude <$> claudeProjects) ++ (codex <$> codexProjects) in
  JS.sort bySortDate merged.

(** [totalTokens] of [getHtmlContent]: the [reduce] over
    [Object.values(modelUsage)]. *)
Definition totalTokens (modelUsage : gmap string ModelTotals.t) : Z :=
  map_fold (λ _ m sum, sum + ModelTotals.input m + ModelTotals.output m)
           0 modelUsage.

(** [dailyData] of [getHtmlContent]: [stats?.dailyActivity?.slice(-14) || []] *)
Definition dailyData (stats : option ClaudeStats.t) : list DailyActivity.t :=
  match stats ≫= ClaudeStats.dailyActivity with
  | Some dailyActivity => JS.slice (-14) dailyActivity
  | None => []
  end.

End DashboardPanel.

(** ** Notions for the aggregations *)

(** The sessions of a list whose working directory is [cwd]. *)
Definition sessionsIn (cwd : string) (sessions : list CodexSession.t)
  : list CodexSession.t :=
  filter (λ s, CodexSession.cwd s = cwd) sessions.

(** The project that [sessions] make up for the working directory [cwd]. *)
Definition projectOf `{Runtime} (cwd : string) (sessions : list CodexSession.t)
  : CodexProjectInfo.t :=
  {| CodexProjectInfo.name := path_basename cwd;
     CodexProjectInfo.path := cwd;
     CodexProjectInfo.sessions := sessionsIn cwd sessions;
     CodexProjectInfo.totalSessions :=
       Z.of_nat (length (sessionsIn cwd sessions));
     CodexProjectInfo.lastModified :=
       foldl CodexAggregates.laterOf 0 (sessionsIn cwd sessions) |}.

(** The shape the two [lastModified] loops share: the later of the date
    so far and the date of [x], when [x] has one. *)
Definition laterBy {A} (key : A → JS.number) (lastModified : Z) (x : A) : Z :=
  if JS.gt (key x) (Some lastModified) then default lastModified (key x)
  else lastModified.

(** The sessions all lie three directories below [sessionsDir], in files
    whose name ends in [.jsonl]. *)
Definition atDepthThree (sessionsDir : string) (sessions : list CodexSession.t)
  : Prop :=
  ∀ s, s ∈ sessions →
       ∃ year month day file,
         CodexSession.filePath s
         = Fs.join (Fs.join (Fs.join (Fs.join sessionsDir year) month) day) file
         ∧ JS.endsWith ".jsonl" file = true.

(** The sum of the [totalSessions] of a list of Codex projects. *)
Definition sumTotalSessions (projects : list CodexProjectInfo.t) : Z :=
  foldr (λ p acc, CodexProjectInfo.totalSessions p + acc) 0 projects.

(** What the project map of [getProjects] holds once the sessions [done]
    have been grouped: one entry per working directory of [done], with the
    project these sessions make up. *)
Definition grouped `{Runtime} (projectMap : JSMap.t CodexProjectInfo.t)
    (done : list CodexSession.t) : Prop :=
  NoDup projectMap.*1
  ∧ ∀ k, JSMap.get projectMap k
         = if decide (k ∈ CodexSession.cwd <$> done)
           then Some (projectOf k done) else None.

(** The sort key of the merged projects. *)
Definition sortDateTime (p : DashboardPanel.MergedProject) : JS.number :=
  Some (DashboardPanel.sortDate p).

(** The sort key of the Codex projects. *)
Definition codexLastModifiedTime (p : CodexProjectInfo.t) : JS.number :=
  Some (CodexProjectInfo.lastModified p).


(** * Properties *)

(** ** The builtins *)

Lemma or_zero_id (n : Z) : JS.or_zero n = n.
Proof. unfold JS.or_zero. case_decide; congruence. Qed.

Lemma or_string_nonempty (s d : string) : s ≠ "" → JS.or_string (Some s) d = s.
Proof. intros Hs. unfold JS.or_string. case_decide; congruence. Qed.

Section sorting.
Context {A : Type} (comparefn : A → A → JS.number).

Lemma sort_insert_Permutation (x : A) (l : list A) :
  JS.sort_insert comparefn x l ≡ₚ x :: l.
Proof.
  induction l as [|y l IH]; simpl; [done|].
  destruct (JS.comes_after comparefn x y); [|done].
  rewrite IH. apply perm_swap.
Qed.

Lemma sort_Permutation (l : list A) : JS.sort comparefn l ≡ₚ l.
Proof.
  induction l as [|x l IH]; simpl; [done|].
  unfold JS.sort in *. simpl.
  rewrite sort_insert_Permutation. by constructor.
Qed.

Lemma sort_elem_of (x : A) (l : list A) : x ∈ JS.sort comparefn l ↔ x ∈ l.
Proof. by rewrite sort_Permutation. Qed.

(** The comparators of the providers all have the shape
    [key(b) - key(a)]. *)
Context (key : A → JS.number).
Hypothesis comparefn_key : ∀ a b, comparefn a b = JS.sub (key b) (key a).

Lemma notBefore_trans : Transitive (notBefore key).
Proof.
  intros a b c (x & y & Ha & Hb & Hxy) (y' & z & Hb' & Hc & Hyz).
  exists x, z. rewrite Hb in Hb'. simplify_eq. repeat split; [done..|lia].
Qed.

Lemma comes_after_spec (a b : A) (x y : Z) :
  key a = Some x → key b = Some y →
  JS.comes_after comparefn a b = bool_decide (x < y).
Proof.
  intros Ha Hb. unfold JS.comes_after.
  rewrite comparefn_key, Ha, Hb. simpl.
  apply bool_decide_ext. lia.
Qed.

Lemma sort_insert_Sorted (x : A) (l : list A) :
  is_Some (key x) → keyed key l →
  Sorted (notBefore key) l → Sorted (notBefore key) (JS.sort_insert comparefn x l).
Proof.
  intros [kx Hx] Hl Hs. induction l as [|y l IH]; simpl.
  - repeat constructor.
  - apply Forall_cons in Hl as [[ky Hy] Hl].
    apply Sorted_inv in Hs as [Hs Hhd].
    rewrite (comes_after_spec x y kx ky) by done.
    case_bool_decide as Hlt.
    + constructor; [by apply IH|].
      destruct l as [|z l]; simpl.
      * constructor. exists ky, kx. repeat split; [done..|lia].
      * apply Forall_cons in Hl as [[kz Hz] _].
        rewrite (comes_after_spec x z kx kz) by done.
        case_bool_decide.
        -- inversion Hhd; by constructor.
        -- constructor. exists ky, kx. repeat split; [done..|lia].
    + constructor; [by constructor|].
      constructor. exists kx, ky. repeat split; [done..|lia].
Qed.

Lemma sort_nonIncreasing (l : list A) :
  keyed key l → nonIncreasingBy key (JS.sort comparefn l).
Proof.
  intros Hl. apply Sorted_StronglySorted; [apply notBefore_trans|].
  induction Hl as [|x l Hx Hl IH]; [constructor|].
  unfold JS.sort in *. simpl. apply sort_insert_Sorted; [done| |done].
  unfold keyed. by rewrite (sort_Permutation l).
Qed.


End sorting.

(** ** [getProjects] *)

Section getProjects.
Context `{Runtime}.
Import ClaudeDataProvider.

Lemma foldl_messageCount (a : Z) (l : list ClaudeSession.t) :
  foldl (λ sum s, sum + ClaudeSession.messageCount s) a l = a + sumMessageCount l.
Proof.
  revert a. induction l as [|s l IH]; intros a; simpl; [lia|].
  rewrite IH. lia.
Qed.

Lemma sumMessageCount_Permutation (l k : list ClaudeSession.t) :
  l ≡ₚ k → sumMessageCount l = sumMessageCount k.
Proof. induction 1; simpl; lia. Qed.

(** What a project record is made of. *)
Lemma readProject_Return fs entry indexPath p :
  readProject fs entry indexPath = Return p →
  ∃ index ss,
    ProjectInfo.sessions p = JS.sort bySessionModified ss
    ∧ ProjectInfo.totalMessages p = sumMessageCount ss
    ∧ ProjectInfo.lastModified p = foldl laterOf 0 ss
    ∧ ProjectInfo.escapedPath p = Fs.name entry
    ∧ ProjectInfo.path p =
        JS.or_string (SessionsIndex.originalPath index)
                     (unescapePath (Fs.name entry)).
Proof.
  unfold readProject. intros Hp.
  destruct (Fs.readFileSync fs indexPath) as [content|]; [|done].
  simpl in Hp.
  destruct (JSON_parse_SessionsIndex content) as [index|]; [|done].
  simpl in Hp. injection Hp as <-. simpl.
  eexists index, _. rewrite foldl_messageCount. repeat split.
Qed.

Lemma visitEntry_elem_of fs projectsDir p entries acc :
  p ∈ foldl (visitEntry fs projectsDir) acc entries →
  p ∈ acc ∨ ∃ entry indexPath,
              entry ∈ entries ∧ readProject fs entry indexPath = Return p.
Proof.
  revert acc. induction entries as [|e entries IH]; intros acc; simpl; [by left|].
  intros Hp. apply IH in Hp as [Hp|(entry & ip & Hin & Hr)].
  - unfold visitEntry in Hp.
    destruct (negb (Fs.isDirectory e)); [by left|].
    destruct (negb (Fs.existsSync fs _)); [by left|].
    destruct (readProject fs e _) as [q|] eqn:Hq; [|by left].
    apply elem_of_app in Hp as [Hp|Hp]; [by left|].
    apply list_elem_of_singleton in Hp as ->.
    right. eexists e, _. split; [by left|done].
  - right. exists entry, ip. split; [by right|done].
Qed.

Lemma getProjects_Return fs projects :
  getProjects fs = Return projects →
  ∃ collected,
    projects = JS.sort byLastModified collected
    ∧ ∀ p, p ∈ projects →
           ∃ entry indexPath, readProject fs entry indexPath = Return p.
Proof.
  unfold getProjects. destruct (negb (Fs.existsSync fs _)).
  - intros [= <-]. exists []. split; [done|]. intros p Hp. by inversion Hp.
  - destruct (Fs.readdirSync fs _) as [entries|]; [|done]. simpl.
    intros [= <-]. eexists. split; [done|].
    intros p Hp. apply sort_elem_of in Hp.
    apply visitEntry_elem_of in Hp as [Hp|(entry & ip & _ & Hr)]; [by inversion Hp|].
    by exists entry, ip.
Qed.




End getProjects.

(** ** [getSessions] *)

Section getSessions.
Context `{Runtime}.
Import CodexDataProvider.



End getSessions.

(** ** The outputs of the scanners and of the project aggregator *)


(** C6: the [totalMessages] of every project that [getProjects] returns is
    the sum of the [messageCount] of the sessions of that project. *)
Theorem C6_totalMessages_is_sum `{Runtime} (fs : Fs.Disk)
    (projects : list ProjectInfo.t) (p : ProjectInfo.t) :
  ClaudeDataProvider.getProjects fs = Return projects →
  p ∈ projects →
  ProjectInfo.totalMessages p = sumMessageCount (ProjectInfo.sessions p).
Proof.
  intros Hps Hp.
  apply getProjects_Return in Hps as (_ & _ & Hall).
  destruct (Hall p Hp) as (entry & ip & Hr).
  apply readProject_Return in Hr as (_ & ss & Hss & Htotal & _).
  rewrite Htotal, Hss. apply sumMessageCount_Permutation.
  symmetry. apply sort_Permutation.
Qed.

(** C7: when the directory a scanner starts from is absent, the scanner
    returns the empty sequence and does not throw: [getProjects] completes
    normally with [[]], and so does the Codex [getSessions], whose
    remaining work all sits inside its [try] block. *)
Theorem C7_missing_root_is_empty `{Runtime} (fs : Fs.Disk) :
  (fs !! Fs.join ClaudeDataProvider.claudeDir "projects" = None →
   ClaudeDataProvider.getProjects fs = Return [])
  ∧ (fs !! Fs.join CodexDataProvider.codexDir "sessions" = None →
     CodexDataProvider.getSessions fs = []).
Proof.
  split; intros Hroot.
  - unfold ClaudeDataProvider.getProjects, Fs.existsSync. rewrite Hroot.
    rewrite bool_decide_eq_false_2; [done|]. by intros [? ?].
  - unfold CodexDataProvider.getSessions, Fs.existsSync. rewrite Hroot.
    rewrite bool_decide_eq_false_2; [done|]. by intros [? ?].
Qed.



Lemma C6_totalMessages_is_sum_witness :
  ProjectInfo.totalMessages Example.project_app
  = sumMessageCount (ProjectInfo.sessions Example.project_app).
Proof.
  apply (C6_totalMessages_is_sum (H := Example.host Example.stats_week)
           Example.disk Example.projects).
  - by vm_compute.
  - vm_compute; constructor.
Defined.

Lemma C7_missing_root_is_empty_witness :
  ClaudeDataProvider.getProjects (H := Example.host Example.stats_week) ∅
  = Return []
  ∧ CodexDataProvider.getSessions (H := Example.host Example.stats_week) ∅ = [].
Proof.
  destruct (C7_missing_root_is_empty (H := Example.host Example.stats_week) ∅)
    as [Hclaude Hcodex].
  split; [apply Hclaude|apply Hcodex]; apply lookup_empty.
Defined.

(** ** Transcripts without session metadata *)

Section parseSessionFile.
Context `{Runtime}.
Import CodexDataProvider.

Lemma keeps_ret {A} P (a : A) : keeps P (Scan.ret a).
Proof. by intros sessions. Qed.

Lemma keeps_bind {A B} P (m : Scan.t A) (k : A → Scan.t B) :
  keeps P m → (∀ a, keeps P (k a)) → keeps P (Scan.bind m k).
Proof.
  intros Hm Hk sessions HP. unfold Scan.bind.
  specialize (Hm sessions HP).
  destruct (m sessions) as [sessions' [a|]]; simpl in *; [by apply Hk|done].
Qed.

Lemma keeps_lift {A} P (c : Completion A) : keeps P (Scan.lift c).
Proof. by intros sessions. Qed.

Lemma keeps_forEach {A} P (l : list A) (body : A → Scan.t unit) :
  (∀ x, keeps P (body x)) → keeps P (Scan.forEach l body).
Proof.
  intros Hbody. induction l as [|x l IH]; simpl.
  - apply keeps_ret.
  - apply keeps_bind; [apply Hbody|by intros _].
Qed.

Lemma parseSessionFile_filePath fs filePath session :
  parseSessionFile fs filePath = Some session →
  CodexSession.filePath session = filePath.
Proof.
  unfold parseSessionFile.
  destruct (Fs.readFileSync fs filePath) as [content|]; [simpl|done].
  destruct (JSON_parse_FirstEvent _) as [ev|]; [simpl|done].
  case_bool_decide; [|done].
  destruct (FirstEvent.payload ev) as [meta|]; [|done].
  destruct (Fs.statSize fs filePath) as [size|]; [simpl|done].
  by intros [= <-].
Qed.

Lemma keeps_scanFile fs dayPath file : keeps (parsedFrom fs) (scanFile fs dayPath file).
Proof.
  unfold scanFile. destruct (negb _); [apply keeps_ret|].
  destruct (parseSessionFile fs _) as [session|] eqn:Hparse; [|apply keeps_ret].
  intros sessions HP s Hs. simpl in Hs.
  apply elem_of_app in Hs as [Hs|Hs]; [by apply HP|].
  apply list_elem_of_singleton in Hs as ->.
  by rewrite (parseSessionFile_filePath _ _ _ Hparse).
Qed.

Lemma keeps_scanYear fs sessionsDir year :
  keeps (parsedFrom fs) (scanYear fs sessionsDir year).
Proof.
  unfold scanYear. destruct (negb _); [apply keeps_ret|].
  apply keeps_bind; [apply keeps_lift|]. intros months.
  apply keeps_forEach. intros month.
  unfold scanMonth. destruct (negb _); [apply keeps_ret|].
  apply keeps_bind; [apply keeps_lift|]. intros days.
  apply keeps_forEach. intros day.
  unfold scanDay. destruct (negb _); [apply keeps_ret|].
  apply keeps_bind; [apply keeps_lift|]. intros files.
  apply keeps_forEach. intros file. apply keeps_scanFile.
Qed.

Lemma getSessions_parsedFrom fs : parsedFrom fs (getSessions fs).
Proof.
  unfold getSessions. destruct (negb _); [by intros s Hs; inversion Hs|].
  simpl. intros s Hs. apply sort_elem_of in Hs. revert s Hs.
  apply (keeps_bind (parsedFrom fs)); [apply keeps_lift| |].
  - intros years. apply keeps_forEach. intros year. apply keeps_scanYear.
  - intros s Hs. inversion Hs.
Qed.

Lemma parseSessionFile_unrecognised fs filePath content :
  fs !! filePath = Some (Fs.File content) →
  ¬ recognised (firstLineOf content) →
  parseSessionFile fs filePath = None.
Proof.
  intros Hfile Hshape. unfold parseSessionFile, Fs.readFileSync.
  rewrite Hfile. simpl. fold (firstLineOf content).
  destruct (JSON_parse_FirstEvent (firstLineOf content)) as [ev|] eqn:Hev;
    [simpl|done].
  case_bool_decide as Htype; [|done].
  destruct (FirstEvent.payload ev) as [meta|] eqn:Hpayload; [|done].
  destruct Hshape. by exists ev, meta.
Qed.

Lemma forEach_skip {A} (body : A → Scan.t unit) (x : A) (before after : list A)
    (sessions : list CodexSession.t) :
  (∀ ss, body x ss = (ss, Return tt)) →
  Scan.forEach (before ++ x :: after) body sessions
  = Scan.forEach (before ++ after) body sessions.
Proof.
  intros Hskip. revert sessions.
  induction before as [|y before IH]; intros sessions; simpl.
  - unfold Scan.bind. by rewrite Hskip.
  - unfold Scan.bind. destruct (body y sessions) as [ss [[]|]]; [apply IH|done].
Qed.

End parseSessionFile.

(** C9: a transcript whose first line does not carry session metadata under
    the recognised envelope yields no session: [parseSessionFile] returns
    [null] for it, no session of [getSessions] names the file, and the loop
    over the files of its directory goes on as if the file were not
    listed. *)
Theorem C9_unrecognised_file_excluded `{Runtime} (fs : Fs.Disk)
    (filePath content : string) :
  fs !! filePath = Some (Fs.File content) →
  ¬ recognised (firstLineOf content) →
  CodexDataProvider.parseSessionFile fs filePath = None
  ∧ (∀ s, s ∈ CodexDataProvider.getSessions fs → CodexSession.filePath s ≠ filePath)
  ∧ (∀ dayPath file before after sessions,
       Fs.join dayPath file = filePath →
       Scan.forEach (before ++ file :: after)
         (CodexDataProvider.scanFile fs dayPath) sessions
       = Scan.forEach (before ++ after)
           (CodexDataProvider.scanFile fs dayPath) sessions).
Proof.
  intros Hfile Hshape.
  pose proof (parseSessionFile_unrecognised fs filePath content Hfile Hshape) as Hnone.
  split; [done|]. split.
  - intros s Hs Hpath. apply getSessions_parsedFrom in Hs.
    rewrite Hpath, Hnone in Hs. done.
  - intros dayPath file before after sessions Hjoin.
    apply forEach_skip. intros ss. unfold CodexDataProvider.scanFile.
    destruct (negb _); [done|]. by rewrite Hjoin, Hnone.
Qed.

Lemma C9_unrecognised_file_excluded_witness :
  CodexDataProvider.parseSessionFile (H := Example.host Example.stats_week)
    Example.disk "/home/dev/.codex/sessions/2024/01/02/x.jsonl" = None.
Proof.
  refine (proj1 (C9_unrecognised_file_excluded
                   (H := Example.host Example.stats_week) Example.disk
                   "/home/dev/.codex/sessions/2024/01/02/x.jsonl"
                   ("not_session_meta" +:+ String "010" "rest") _ _)).
  - by vm_compute.
  - intros (ev & meta & Hev & Htype & Hpayload).
    vm_compute in Hev. injection Hev as <-. discriminate Htype.
Defined.

(** ** [getRecentHistory] *)

Section getRecentHistory.
Context `{Runtime}.
Import ClaudeDataProvider.

Lemma foldl_pushParsed (acc : list HistoryEntry.t) (lines : list string) :
  foldl pushParsed acc lines = acc ++ omap JSON_parse_HistoryEntry lines.
Proof.
  revert acc. induction lines as [|line lines IH]; intros acc; simpl.
  - by rewrite app_nil_r.
  - rewrite IH. unfold pushParsed.
    destruct (JSON_parse_HistoryEntry line); [by rewrite <- app_assoc|done].
Qed.

Lemma slice_last {A} (limit : Z) (l : list A) :
  0 < limit → JS.slice (- limit) l = drop (length l - Z.to_nat limit) l.
Proof.
  intros Hpos. unfold JS.slice. rewrite decide_True by lia. f_equal. lia.
Qed.

Lemma slice_minus_zero {A} (l : list A) : JS.slice (- 0) l = l.
Proof.
  unfold JS.slice. change (- 0) with 0. case_decide; [lia|].
  by replace (Z.to_nat (0 `min` Z.of_nat (length l))) with 0%nat by lia.
Qed.

Lemma length_omap_le {A B} (f : A → option B) (l : list A) :
  (length (omap f l) ≤ length l)%nat.
Proof.
  induction l as [|x l IH]; [done|]. cbn [omap list_omap length].
  destruct (f x); cbn [length]; lia.
Qed.

Lemma getRecentHistory_file fs limit content :
  fs !! Fs.join claudeDir "history.jsonl" = Some (Fs.File content) →
  getRecentHistory fs limit
  = reverse (omap JSON_parse_HistoryEntry
               (JS.slice (- limit) (historyLines content))).
Proof.
  intros Hfile. unfold getRecentHistory, Fs.existsSync, Fs.readFileSync.
  rewrite Hfile. rewrite bool_decide_eq_true_2 by eauto. simpl.
  by rewrite foldl_pushParsed.
Qed.

Lemma getRecentHistory_length fs limit :
  0 < limit → Z.of_nat (length (getRecentHistory fs limit)) <= limit.
Proof.
  intros Hpos. unfold getRecentHistory.
  destruct (negb _); [simpl; lia|].
  destruct (Fs.readFileSync fs _) as [content|]; simpl; [|lia].
  rewrite foldl_pushParsed, length_reverse. simpl.
  pose proof (length_omap_le JSON_parse_HistoryEntry
                (JS.slice (- limit) (historyLines content))) as Hle.
  rewrite slice_last in * by done. rewrite length_drop in Hle. lia.
Qed.

End getRecentHistory.

(** C10: for a limit above zero [getRecentHistory] returns at most [limit]
    entries, those parsed from the last [limit] lines of the file, newest
    first; for the limit zero the slice [lines.slice(-0)] is the whole
    list, and the result holds every entry of the file that parses. *)
Theorem C10_recent_history `{Runtime} (fs : Fs.Disk) (limit : Z) :
  (0 < limit →
   Z.of_nat (length (ClaudeDataProvider.getRecentHistory fs limit)) <= limit)
  ∧ ∀ content,
      fs !! Fs.join ClaudeDataProvider.claudeDir "history.jsonl"
        = Some (Fs.File content) →
      (0 < limit →
       ClaudeDataProvider.getRecentHistory fs limit
       = reverse (omap JSON_parse_HistoryEntry
                    (drop (length (ClaudeDataProvider.historyLines content)
                           - Z.to_nat limit)
                       (ClaudeDataProvider.historyLines content))))
      ∧ ClaudeDataProvider.getRecentHistory fs 0
        = reverse (omap JSON_parse_HistoryEntry
                     (ClaudeDataProvider.historyLines content)).
Proof.
  split; [apply getRecentHistory_length|].
  intros content Hfile. split.
  - intros Hpos. rewrite (getRecentHistory_file _ _ _ Hfile).
    by rewrite slice_last.
  - rewrite (getRecentHistory_file _ _ _ Hfile).
    by rewrite slice_minus_zero.
Qed.

Lemma C10_recent_history_witness :
  Z.of_nat (length (ClaudeDataProvider.getRecentHistory
                      (H := Example.host Example.stats_week) Example.disk 2)) <= 2
  ∧ ClaudeDataProvider.getRecentHistory
      (H := Example.host Example.stats_week) Example.disk 2
    = [Example.entry "third" 3; Example.entry "second" 2]
  ∧ ClaudeDataProvider.getRecentHistory
      (H := Example.host Example.stats_week) Example.disk 0
    = [Example.entry "third" 3; Example.entry "second" 2; Example.entry "first" 1].
Proof.
  destruct (C10_recent_history (H := Example.host Example.stats_week)
              Example.disk 2) as [Hlen Hfile].
  destruct (Hfile ("h1" +:+ String "010" ("broken" +:+ String "010" ("h2"
                   +:+ String "010" "h3")))) as [Htail Hall];
    [by vm_compute|].
  split; [apply Hlen; lia|]. split.
  - rewrite Htail by lia. by vm_compute.
  - rewrite Hall. by vm_compute.
Defined.

(** ** [formatRelativeTime] *)

Section formatRelativeTime.
Context `{Runtime}.
Import ClaudeDataProvider.

Lemma div_bounds (a b : Z) : 0 < b → b * (a `div` b) <= a < b * (a `div` b) + b.
Proof.
  intros Hb. pose proof (Z.div_mod a b). pose proof (Z.mod_pos_bound a b). lia.
Qed.

Lemma formatRelativeTime_just_now now date :
  now - date < 60000 → formatRelativeTime now date = "just now".
Proof.
  intros Hd. unfold formatRelativeTime.
  pose proof (div_bounds (now - date) 60000).
  rewrite decide_True by lia. done.
Qed.

Lemma formatRelativeTime_minutes now date :
  60000 <= now - date < 3600000 →
  formatRelativeTime now date = pretty ((now - date) `div` 60000) +:+ "m ago".
Proof.
  intros Hd. unfold formatRelativeTime.
  pose proof (div_bounds (now - date) 60000).
  rewrite decide_False by lia. rewrite decide_True by lia. done.
Qed.

Lemma formatRelativeTime_hours now date :
  3600000 <= now - date < 86400000 →
  formatRelativeTime now date = pretty ((now - date) `div` 3600000) +:+ "h ago".
Proof.
  intros Hd. unfold formatRelativeTime.
  pose proof (div_bounds (now - date) 60000).
  pose proof (div_bounds (now - date) 3600000).
  do 2 rewrite decide_False by lia. rewrite decide_True by lia. done.
Qed.

Lemma formatRelativeTime_days now date :
  86400000 <= now - date < 604800000 →
  formatRelativeTime now date = pretty ((now - date) `div` 86400000) +:+ "d ago".
Proof.
  intros Hd. unfold formatRelativeTime.
  pose proof (div_bounds (now - date) 60000).
  pose proof (div_bounds (now - date) 3600000).
  pose proof (div_bounds (now - date) 86400000).
  do 3 rewrite decide_False by lia. rewrite decide_True by lia. done.
Qed.

Lemma formatRelativeTime_date now date :
  604800000 <= now - date →
  formatRelativeTime now date = Date_toLocaleDateString date.
Proof.
  intros Hd. unfold formatRelativeTime.
  pose proof (div_bounds (now - date) 60000).
  pose proof (div_bounds (now - date) 3600000).
  pose proof (div_bounds (now - date) 86400000).
  do 4 rewrite decide_False by lia. done.
Qed.

End formatRelativeTime.

(** C4, as the code has it: an instant exactly 59 seconds in the past is
    below the one-minute threshold and is formatted as ["just now"]; an
    instant exactly 60 seconds in the past is formatted as ["1m ago"]; and
    every threshold is taken on the floor of the elapsed milliseconds
    divided by the unit, which is also the number that is printed. *)
Theorem C4_relative_time_thresholds `{Runtime} (now : Z) :
  ClaudeDataProvider.formatRelativeTime now (now - 59000) = "just now"
  ∧ ClaudeDataProvider.formatRelativeTime now (now - 60000) = "1m ago"
  ∧ ∀ date,
      (now - date < 60000 →
       ClaudeDataProvider.formatRelativeTime now date = "just now")
      ∧ (60000 <= now - date < 3600000 →
         ClaudeDataProvider.formatRelativeTime now date
         = pretty ((now - date) `div` 60000) +:+ "m ago")
      ∧ (3600000 <= now - date < 86400000 →
         ClaudeDataProvider.formatRelativeTime now date
         = pretty ((now - date) `div` 3600000) +:+ "h ago")
      ∧ (86400000 <= now - date < 604800000 →
         ClaudeDataProvider.formatRelativeTime now date
         = pretty ((now - date) `div` 86400000) +:+ "d ago")
      ∧ (604800000 <= now - date →
         ClaudeDataProvider.formatRelativeTime now date
         = Date_toLocaleDateString date).
Proof.
  split; [apply formatRelativeTime_just_now; lia|]. split.
  - rewrite formatRelativeTime_minutes by lia.
    by replace (now - (now - 60000)) with 60000 by lia.
  - intros date. repeat split.
    + apply formatRelativeTime_just_now.
    + apply formatRelativeTime_minutes.
    + apply formatRelativeTime_hours.
    + apply formatRelativeTime_days.
    + apply formatRelativeTime_date.
Qed.

Lemma C4_relative_time_thresholds_witness :
  ClaudeDataProvider.formatRelativeTime (H := Example.host Example.stats_week)
    1700000000000 1699999999000 = "just now"
  ∧ ClaudeDataProvider.formatRelativeTime (H := Example.host Example.stats_week)
      1700000000000 1699999880000 = "2m ago"
  ∧ ClaudeDataProvider.formatRelativeTime (H := Example.host Example.stats_week)
      1700000000000 1699992800000 = "2h ago"
  ∧ ClaudeDataProvider.formatRelativeTime (H := Example.host Example.stats_week)
      1700000000000 1699827200000 = "2d ago"
  ∧ ClaudeDataProvider.formatRelativeTime (H := Example.host Example.stats_week)
      1700000000000 1699000000000 = "1/5/2024".
Proof.
  pose proof (C4_relative_time_thresholds (H := Example.host Example.stats_week)
                1700000000000) as (_ & _ & Hall).
  split; [apply (Hall 1699999999000); lia|].
  split; [rewrite (proj1 (proj2 (Hall 1699999880000))) by lia; by vm_compute|].
  split; [rewrite (proj1 (proj2 (proj2 (Hall 1699992800000)))) by lia;
          by vm_compute|].
  split; [rewrite (proj1 (proj2 (proj2 (proj2 (Hall 1699827200000))))) by lia;
          by vm_compute|].
  rewrite (proj2 (proj2 (proj2 (proj2 (Hall 1699000000000))))) by lia.
  by vm_compute.
Defined.

(** C4, as stated, fails: 59 seconds in the past is ["just now"]. *)
Lemma C4_counterexample :
  ClaudeDataProvider.formatRelativeTime (H := Example.host Example.stats_week)
    1700000000000 (1700000000000 - 59000) = "just now".
Proof. by vm_compute. Qed.

(** ** [getTodayStats] *)

Section getTodayStats.
Context `{Runtime}.
Import ClaudeDataProvider.

Lemma at_index_last {A} (l : list A) :
  JS.at_index l (Z.of_nat (length l) - 1) = last l.
Proof.
  unfold JS.at_index. rewrite last_lookup. destruct l as [|x l].
  - by rewrite decide_False by (simpl; lia).
  - rewrite decide_True by (simpl; lia). f_equal. simpl. lia.
Qed.

Lemma find_None_all {A} (p : A → bool) (l : list A) :
  (∀ x, x ∈ l → p x = false) → JS.find p l = None.
Proof.
  unfold JS.find. induction l as [|x l IH]; intros Hall; simpl; [done|].
  rewrite (Hall x) by left. apply IH. intros y Hy. apply Hall. by right.
Qed.

Lemma find_Some_holds {A} (p : A → bool) (l : list A) (x : A) :
  JS.find p l = Some x → p x = true.
Proof. unfold JS.find. intros Hx. by apply List.find_some in Hx as [_ ?]. Qed.

Lemma foldl_sumTokens (a : Z) (l : list (string * Z)) :
  foldl (λ totalTokens entry, totalTokens + JS.or_zero entry.2) a l
  = a + sumCounts l.
Proof.
  revert a. induction l as [|e l IH]; intros a; simpl; [lia|].
  rewrite IH, or_zero_id. lia.
Qed.

Lemma sumTokens_sumCounts (l : list (string * Z)) : sumTokens l = sumCounts l.
Proof. unfold sumTokens. rewrite foldl_sumTokens. lia. Qed.

(** The snapshot when no entry of the activity list is dated today. *)
Lemma getTodayStats_fallback fs today stats l a :
  getStats fs = Some stats →
  ClaudeStats.dailyActivity stats = Some l →
  last l = Some a →
  (∀ d, d ∈ l → DailyActivity.date d ≠ today) →
  getTodayStats fs today
  = {| TodayStats.messages := DailyActivity.messageCount a;
       TodayStats.sessions := DailyActivity.sessionCount a;
       TodayStats.toolCalls := DailyActivity.toolCallCount a;
       TodayStats.totalTokens :=
         match (ClaudeStats.dailyModelTokens stats ≫= last)
               ≫= DailyModelTokens.tokensByModel with
         | Some tokensByModel => sumCounts tokensByModel
         | None => 0
         end;
       TodayStats.date := JS.or_string (Some (DailyActivity.date a)) today |}.
Proof.
  intros Hstats Hl Hlast Hnot. unfold getTodayStats. rewrite Hstats, Hl.
  rewrite decide_False by (by destruct l).
  rewrite find_None_all
    by (intros d Hd; apply bool_decide_eq_false_2; by apply Hnot).
  rewrite at_index_last, Hlast. simpl. rewrite !or_zero_id.
  f_equal.
  destruct (ClaudeStats.dailyModelTokens stats) as [tokens|]; simpl; [|done].
  rewrite at_index_last.
  destruct (last tokens) as [tokenData|]; simpl; [|done].
  destruct (DailyModelTokens.tokensByModel tokenData); [|done].
  apply sumTokens_sumCounts.
Qed.

(** The snapshot when the activity list has an entry dated today. *)
Lemma getTodayStats_today fs today stats l a :
  getStats fs = Some stats →
  ClaudeStats.dailyActivity stats = Some l →
  JS.find (λ d, bool_decide (DailyActivity.date d = today)) l = Some a →
  getTodayStats fs today
  = {| TodayStats.messages := DailyActivity.messageCount a;
       TodayStats.sessions := DailyActivity.sessionCount a;
       TodayStats.toolCalls := DailyActivity.toolCallCount a;
       TodayStats.totalTokens := sumCounts (tokensOn today stats);
       TodayStats.date := today |}.
Proof.
  intros Hstats Hl Hfind. unfold getTodayStats. rewrite Hstats, Hl.
  rewrite decide_False by (by destruct l).
  rewrite Hfind. simpl. rewrite !or_zero_id. f_equal.
  unfold tokensOn.
  destruct (ClaudeStats.dailyModelTokens stats) as [tokens|]; simpl; [|done].
  destruct (JS.find _ tokens) as [tokenData|]; simpl; [|done].
  destruct (DailyModelTokens.tokensByModel tokenData); [|done].
  apply sumTokens_sumCounts.
Qed.

Lemma getTodayStats_zero fs today :
  getStats fs = None
  ∨ (∃ stats, getStats fs = Some stats
              ∧ (ClaudeStats.dailyActivity stats = None
                 ∨ ClaudeStats.dailyActivity stats = Some [])) →
  getTodayStats fs today = TodayStats.mk 0 0 0 0 today.
Proof.
  unfold getTodayStats. intros [->|(stats & -> & [->| ->])]; done.
Qed.

Lemma chronologicallyLast_from (best : option DailyActivity.t)
    (l : list DailyActivity.t) :
  chronological l →
  (∀ b d, best = Some b → head l = Some d →
          String.leb (DailyActivity.date b) (DailyActivity.date d) = true) →
  foldl (λ best d,
           match best with
           | None => Some d
           | Some b =>
               if String.leb (DailyActivity.date b) (DailyActivity.date d)
               then Some d else Some b
           end) best l
  = match last l with Some a => Some a | None => best end.
Proof.
  revert best. induction l as [|d l IH]; intros best Hs Hbest; [done|].
  apply Sorted_inv in Hs as [Hs Hhd]. simpl. rewrite IH; [|done|].
  - rewrite last_cons. destruct (last l); [done|].
    destruct best as [b|]; [|done]. by rewrite (Hbest b d).
  - intros b d' Hb Hd'. destruct l as [|d'' l]; [done|].
    simpl in Hd'. injection Hd' as ->.
    assert (b = d) as ->.
    { destruct best as [b'|]; [|congruence].
      rewrite (Hbest b' d) in Hb by done. congruence. }
    by inversion Hhd.
Qed.

Lemma chronologicallyLast_last (l : list DailyActivity.t) (a : DailyActivity.t) :
  chronological l → last l = Some a → chronologicallyLast l = Some a.
Proof.
  intros Hs Hlast. unfold chronologicallyLast.
  rewrite chronologicallyLast_from; [by rewrite Hlast|done|done].
Qed.

End getTodayStats.

(** C2, as the code has it: when the daily-activity list is non-empty and
    has no entry for today, the snapshot carries the message, session and
    tool-call counts of the entry at the last position of the list, which
    is the chronologically last entry when the list is in chronological
    order, and its label is the date of that entry, or today's date when
    that date is the empty string; when the stats are absent or have no
    daily activity, the snapshot is all zero and labelled with today's
    date. *)
Theorem C2_snapshot_of_last_entry `{Runtime} (fs : Fs.Disk) (today : string) :
  (∀ stats l a,
     ClaudeDataProvider.getStats fs = Some stats →
     ClaudeStats.dailyActivity stats = Some l →
     last l = Some a →
     (∀ d, d ∈ l → DailyActivity.date d ≠ today) →
     TodayStats.messages (ClaudeDataProvider.getTodayStats fs today)
       = DailyActivity.messageCount a
     ∧ TodayStats.sessions (ClaudeDataProvider.getTodayStats fs today)
         = DailyActivity.sessionCount a
     ∧ TodayStats.toolCalls (ClaudeDataProvider.getTodayStats fs today)
         = DailyActivity.toolCallCount a
     ∧ TodayStats.date (ClaudeDataProvider.getTodayStats fs today)
         = (if decide (DailyActivity.date a = "") then today
            else DailyActivity.date a)
     ∧ (chronological l → chronologicallyLast l = Some a))
  ∧ (ClaudeDataProvider.getStats fs = None
     ∨ (∃ stats, ClaudeDataProvider.getStats fs = Some stats
                 ∧ (ClaudeStats.dailyActivity stats = None
                    ∨ ClaudeStats.dailyActivity stats = Some [])) →
     ClaudeDataProvider.getTodayStats fs today = TodayStats.mk 0 0 0 0 today).
Proof.
  split; [|apply getTodayStats_zero].
  intros stats l a Hstats Hl Hlast Hnot.
  rewrite (getTodayStats_fallback fs today stats l a) by done. simpl.
  repeat split. intros Hs. by apply chronologicallyLast_last.
Qed.

Lemma C2_snapshot_of_last_entry_witness :
  ClaudeDataProvider.getTodayStats (H := Example.host Example.stats_week)
    Example.disk "2024-06-01"
  = TodayStats.mk 7 2 3 56 "2024-01-05"
  ∧ ClaudeDataProvider.getTodayStats (H := Example.host Example.stats_week)
      ∅ "2024-06-01"
    = TodayStats.mk 0 0 0 0 "2024-06-01".
Proof.
  split.
  - pose proof (proj1 (C2_snapshot_of_last_entry
                         (H := Example.host Example.stats_week)
                         Example.disk "2024-06-01")
                  Example.stats_week _ (Example.day "2024-01-05" 7 2 3)
                  ltac:(by vm_compute) eq_refl eq_refl) as Hlast.
    destruct Hlast as (_ & _ & _ & _ & Hchrono).
    + intros d Hd. vm_compute in Hd.
      repeat (apply elem_of_cons in Hd as [->|Hd]; [by vm_compute|]).
      by apply elem_of_nil in Hd.
    + by vm_compute.
  - apply (proj2 (C2_snapshot_of_last_entry
                    (H := Example.host Example.stats_week) ∅ "2024-06-01")).
    left. by vm_compute.
Defined.

(** C2, as stated, fails twice: on a list that is not in chronological
    order the snapshot is that of the last position (2024-01-03), not of
    the chronologically last entry (2024-01-05); and for a list whose only
    entry has an empty date the label is today's date, not the date of the
    entry. *)
Lemma C2_counterexample :
  chronologicallyLast [Example.day "2024-01-05" 7 2 3; Example.day "2024-01-03" 8 2 4]
  = Some (Example.day "2024-01-05" 7 2 3)
  ∧ ClaudeDataProvider.getTodayStats (H := Example.host Example.stats_unordered)
      Example.disk "2024-06-01"
    = TodayStats.mk 8 2 4 0 "2024-01-03"
  ∧ TodayStats.date
      (ClaudeDataProvider.getTodayStats (H := Example.host Example.stats_unordered)
         Example.disk "2024-06-01")
    ≠ DailyActivity.date (Example.day "2024-01-05" 7 2 3)
  ∧ chronologicallyLast [Example.day "" 7 2 3] = Some (Example.day "" 7 2 3)
  ∧ ClaudeDataProvider.getTodayStats (H := Example.host Example.stats_undated)
      Example.disk "2024-06-01"
    = TodayStats.mk 7 2 3 0 "2024-06-01"
  ∧ TodayStats.date
      (ClaudeDataProvider.getTodayStats (H := Example.host Example.stats_undated)
         Example.disk "2024-06-01")
    ≠ DailyActivity.date (Example.day "" 7 2 3).
Proof. repeat split; by vm_compute. Qed.

(** C3 on the failing input: the activity list ends on 2024-01-05 and the
    token list has an entry for that day (50 tokens) followed by one for
    2024-01-06 (100 tokens).  The snapshot is labelled 2024-01-05 and
    reports the 100 tokens of the other day. *)
Theorem C3_tokens_of_another_day :
  TodayStats.date
    (ClaudeDataProvider.getTodayStats (H := Example.host Example.stats_misaligned)
       Example.disk "2024-06-01") = "2024-01-05"
  ∧ TodayStats.totalTokens
      (ClaudeDataProvider.getTodayStats (H := Example.host Example.stats_misaligned)
         Example.disk "2024-06-01") = 100
  ∧ sumCounts (tokensOn "2024-01-05" Example.stats_misaligned) = 50.
Proof. by vm_compute. Qed.

(** ** [getModelUsage] *)

Section getModelUsage.
Context `{Runtime}.
Import ClaudeDataProvider.

(** Each short name ends up with the counts of the last identifier that
    maps to it. *)
Lemma recordUsage_last_wins (modelUsage : list (string * TokenUsage.t))
    (result : gmap string ModelTotals.t) (shortName : string) :
  foldl recordUsage result modelUsage !! shortName
  = match last (filter (λ e, getShortModelName e.1 = shortName) modelUsage) with
    | Some e =>
        Some {| ModelTotals.input := TokenUsage.inputTokens e.2;
                ModelTotals.output := TokenUsage.outputTokens e.2 |}
    | None => result !! shortName
    end.
Proof.
  revert result. induction modelUsage as [|e l IH]; intros result; [done|].
  cbn [foldl]. rewrite IH. unfold recordUsage. rewrite !or_zero_id.
  destruct (decide (getShortModelName e.1 = shortName)) as [Heq|Hne].
  - rewrite filter_cons_True by done. rewrite last_cons.
    destruct (last _); [done|]. rewrite Heq. apply lookup_insert_eq.
  - rewrite filter_cons_False by done.
    destruct (last _); [done|]. by apply lookup_insert_ne.
Qed.

Lemma getModelUsage_last_wins fs stats modelUsage shortName :
  getStats fs = Some stats →
  ClaudeStats.modelUsage stats = Some modelUsage →
  getModelUsage fs !! shortName
  = (λ e, {| ModelTotals.input := TokenUsage.inputTokens e.2;
             ModelTotals.output := TokenUsage.outputTokens e.2 |})
      <$> last (filter (λ e, getShortModelName e.1 = shortName) modelUsage).
Proof.
  intros Hstats Husage. unfold getModelUsage. rewrite Hstats. simpl.
  rewrite Husage, recordUsage_last_wins. by destruct (last _).
Qed.

End getModelUsage.

(** C1 on the failing input: the identifiers [claude-opus-4-20250101]
    (100 in, 10 out) and [claude-opus-4-20250215] (20 in, 2 out) both have
    the short name ["Opus"], and the entry of ["Opus"] has the counts of the
    second one alone, not the sums 120 and 12. *)
Theorem C1_collision_keeps_last_only :
  ClaudeDataProvider.getShortModelName "claude-opus-4-20250101" = "Opus"
  ∧ ClaudeDataProvider.getShortModelName "claude-opus-4-20250215" = "Opus"
  ∧ ClaudeStats.modelUsage Example.stats_week
    = Some [("claude-opus-4-20250101", Example.usage 100 10);
            ("claude-opus-4-20250215", Example.usage 20 2);
            ("claude-sonnet-4", Example.usage 7 1)]
  ∧ ClaudeDataProvider.getModelUsage (H := Example.host Example.stats_week)
      Example.disk !! "Opus"
    = Some {| ModelTotals.input := 20; ModelTotals.output := 2 |}.
Proof. by vm_compute. Qed.

(** ** [unescapePath] *)

Lemma unescapePath_escapePath (p : string) :
  ClaudeDataProvider.unescapePath (escapePath p) = JS.replaceAll "-" "/" p.
Proof.
  unfold ClaudeDataProvider.unescapePath, escapePath.
  induction p as [|c p IH]; simpl; [done|]. rewrite IH. f_equal.
  repeat case_decide; congruence.
Qed.

Lemma replaceAll_freeOf (c d : ascii) (p : string) :
  freeOf c p → JS.replaceAll c d p = p.
Proof.
  induction p as [|x p IH]; simpl; [done|]. intros [Hx Hp].
  rewrite IH by done. by rewrite decide_False.
Qed.

(** C8, as the code has it: unescaping an escaped path replaces every
    hyphen of the path by a separator, next to restoring the separators;
    a path without a hyphen is recovered, also as the [path] of the
    project whose index has no [originalPath]. *)
Theorem C8_roundtrip_without_hyphen `{Runtime} (projectPath : string) :
  ClaudeDataProvider.unescapePath (escapePath projectPath)
  = JS.replaceAll "-" "/" projectPath
  ∧ (freeOf "-" projectPath →
     ClaudeDataProvider.unescapePath (escapePath projectPath) = projectPath
     ∧ ∀ fs entry indexPath project,
         Fs.name entry = escapePath projectPath →
         ClaudeDataProvider.readProject fs entry indexPath = Return project →
         ProjectInfo.path project = projectPath
         ∨ ∃ content index original,
             fs !! indexPath = Some (Fs.File content)
             ∧ JSON_parse_SessionsIndex content = Some index
             ∧ SessionsIndex.originalPath index = Some original
             ∧ original ≠ ""
             ∧ ProjectInfo.path project = original).
Proof.
  split; [apply unescapePath_escapePath|]. intros Hfree.
  assert (ClaudeDataProvider.unescapePath (escapePath projectPath) = projectPath)
    as Hround.
  { rewrite unescapePath_escapePath. by apply replaceAll_freeOf. }
  split; [done|].
  intros fs entry indexPath project Hname.
  unfold ClaudeDataProvider.readProject, Fs.readFileSync.
  destruct (fs !! indexPath) as [[content|]|] eqn:Hfile; [simpl|done..].
  destruct (JSON_parse_SessionsIndex content) as [index|] eqn:Hindex; [simpl|done].
  intros [= <-]. simpl. rewrite Hname, Hround.
  destruct (SessionsIndex.originalPath index) as [original|] eqn:Horig; simpl.
  - case_decide; [by left|]. right. by exists content, index, original.
  - by left.
Qed.

Lemma C8_roundtrip_without_hyphen_witness :
  ClaudeDataProvider.unescapePath (escapePath "/home/dev/app") = "/home/dev/app".
Proof.
  refine (proj1 (proj2 (C8_roundtrip_without_hyphen
                          (H := Example.host Example.stats_week)
                          "/home/dev/app") _)).
  simpl. repeat split; discriminate.
Defined.

(** C8, as stated, fails on a path with a hyphen. *)
Lemma C8_counterexample :
  ClaudeDataProvider.unescapePath (escapePath "/home/dev/my-lib")
  = "/home/dev/my/lib"
  ∧ ClaudeDataProvider.unescapePath (escapePath "/home/dev/my-lib")
    ≠ "/home/dev/my-lib".
Proof. split; [by vm_compute|]. vm_compute. discriminate. Qed.

(** * Further properties of the providers *)

(** ** The running maximum of the [lastModified] loops *)

Section latest.
Context {A : Type} (key : A → JS.number).

#[local] Abbreviation later := (laterBy key).

Lemma later_cases (a : Z) (x : A) :
  (later a x = a ∧ ∀ t, key x = Some t → t <= a)
  ∨ (key x = Some (later a x) ∧ a < later a x).
Proof.
  unfold laterBy, JS.gt. destruct (key x) as [t|]; simpl.
  - case_bool_decide; [right; split; [done|lia]|left].
    split; [done|]. intros t' [= <-]. lia.
  - left. split; [done|]. intros t' [=].
Qed.

Lemma foldl_later_ge (a : Z) (l : list A) : a <= foldl later a l.
Proof.
  revert a. induction l as [|x l IH]; intros a; simpl; [lia|].
  etrans; [|apply IH]. destruct (later_cases a x) as [[-> _]|[_ ?]]; lia.
Qed.

Lemma foldl_later_bound (a : Z) (l : list A) (x : A) (t : Z) :
  x ∈ l → key x = Some t → t <= foldl later a l.
Proof.
  revert a. induction l as [|y l IH]; intros a Hx Ht; [by inversion Hx|].
  simpl. apply elem_of_cons in Hx as [->|Hx]; [|by apply IH].
  etrans; [|apply foldl_later_ge].
  destruct (later_cases a y) as [[Heq Hle]|[Hk ?]].
  - rewrite Heq. by apply Hle.
  - rewrite Ht in Hk. injection Hk as <-. lia.
Qed.

Lemma foldl_later_attained (a : Z) (l : list A) :
  foldl later a l = a ∨ ∃ x, x ∈ l ∧ key x = Some (foldl later a l).
Proof.
  revert a. induction l as [|y l IH]; intros a; simpl; [by left|].
  destruct (IH (later a y)) as [Heq|(x & Hx & Hk)].
  - rewrite Heq. destruct (later_cases a y) as [[-> _]|[Hk _]]; [by left|].
    right. exists y. split; [by left|done].
  - right. exists x. split; [by right|done].
Qed.

Lemma foldl_later_Permutation (a : Z) (l k : list A) :
  l ≡ₚ k → foldl later a l = foldl later a k.
Proof.
  intros Hperm. apply Z.le_antisymm.
  - destruct (foldl_later_attained a l) as [->|(x & Hx & Hk)].
    + apply foldl_later_ge.
    + apply (foldl_later_bound _ _ x); [by rewrite <- Hperm|done].
  - destruct (foldl_later_attained a k) as [->|(x & Hx & Hk)].
    + apply foldl_later_ge.
    + apply (foldl_later_bound _ _ x); [by rewrite Hperm|done].
Qed.

End latest.

(** ** More on [getProjects] *)

Section getProjects_more.
Context `{Runtime}.
Import ClaudeDataProvider.

(** The path of the index of a project directory. *)
Let indexPathOf (entry : Fs.Dirent) : string :=
  Fs.join (Fs.join (Fs.join claudeDir "projects") (Fs.name entry))
          "sessions-index.json".

Lemma visitEntry_origin fs p entries acc :
  p ∈ foldl (visitEntry fs (Fs.join claudeDir "projects")) acc entries →
  p ∈ acc ∨ ∃ entry,
              entry ∈ entries ∧ Fs.isDirectory entry = true
              ∧ readProject fs entry (indexPathOf entry) = Return p.
Proof.
  revert acc. induction entries as [|e entries IH]; intros acc; simpl; [by left|].
  intros Hp. apply IH in Hp as [Hp|(entry & Hin & Hdir & Hr)].
  - unfold visitEntry in Hp.
    destruct (Fs.isDirectory e) eqn:Hdir; simpl in Hp; [|by left].
    destruct (negb (Fs.existsSync fs _)); [by left|].
    destruct (readProject fs e _) as [q|] eqn:Hq; [|by left].
    apply elem_of_app in Hp as [Hp|Hp]; [by left|].
    apply list_elem_of_singleton in Hp as ->.
    right. exists e. split; [by left|done].
  - right. exists entry. split; [by right|done].
Qed.

Lemma visitEntry_length fs dir entries acc :
  (length (foldl (visitEntry fs dir) acc entries)
   ≤ length acc + length entries)%nat.
Proof.
  revert acc. induction entries as [|e entries IH]; intros acc; simpl; [lia|].
  etrans; [apply IH|]. unfold visitEntry.
  destruct (negb (Fs.isDirectory e)); [lia|].
  destruct (negb (Fs.existsSync fs _)); [lia|].
  destruct (readProject fs e _); [rewrite length_app; simpl|]; lia.
Qed.

Lemma readProject_record fs entry indexPath p :
  readProject fs entry indexPath = Return p →
  ∃ content index,
    fs !! indexPath = Some (Fs.File content)
    ∧ JSON_parse_SessionsIndex content = Some index
    ∧ ProjectInfo.escapedPath p = Fs.name entry
    ∧ ProjectInfo.path p
      = JS.or_string (SessionsIndex.originalPath index)
                     (unescapePath (Fs.name entry))
    ∧ ProjectInfo.name p = path_basename (ProjectInfo.path p)
    ∧ ProjectInfo.sessions p
      ≡ₚ match SessionsIndex.entries index with
         | Some l => l
         | None => default [] (SessionsIndex.sessions index)
         end
    ∧ ProjectInfo.lastModified p
      = foldl laterOf 0 (ProjectInfo.sessions p).
Proof.
  unfold readProject, Fs.readFileSync. intros Hp.
  destruct (fs !! indexPath) as [[content|]|]; [simpl in Hp|done..].
  destruct (JSON_parse_SessionsIndex content) as [index|] eqn:Hindex; [|done].
  simpl in Hp. injection Hp as <-. simpl.
  exists content, index.
  split_and!; [done|done|done|done|done|apply sort_Permutation|].
  symmetry. apply (foldl_later_Permutation modifiedTime).
  apply sort_Permutation.
Qed.

End getProjects_more.

Section getProjects_results.
Context `{Runtime}.
Import ClaudeDataProvider.

Lemma getProjects_listing fs projects :
  getProjects fs = Return projects →
  projects = []
  ∨ ∃ entries,
      fs !! Fs.join claudeDir "projects" = Some (Fs.Directory entries)
      ∧ projects
        = JS.sort byLastModified
            (foldl (visitEntry fs (Fs.join claudeDir "projects")) [] entries).
Proof.
  unfold getProjects, Fs.readdirSync. destruct (negb (Fs.existsSync fs _)).
  - intros [= <-]. by left.
  - destruct (fs !! Fs.join claudeDir "projects") as [[content|entries]|];
      [done| |done].
    simpl. intros [= <-]. right. by exists entries.
Qed.

Lemma visitEntry_skip fs dir e before after acc :
  (∀ acc', visitEntry fs dir acc' e = acc') →
  foldl (visitEntry fs dir) acc (before ++ e :: after)
  = foldl (visitEntry fs dir) acc (before ++ after).
Proof. intros Hskip. rewrite !foldl_app. simpl. by rewrite Hskip. Qed.

End getProjects_results.

(** Every project that [getProjects] returns comes from an entry of the
    projects directory that is flagged as a directory and whose
    [sessions-index.json] is a file that parses; the record carries the
    name of that entry, the path from [originalPath] or else from the
    unescaped name, the base name of that path, and the sessions of
    [entries], or of the legacy [sessions] when [entries] is absent.
    There is at most one project per listed entry. *)
Theorem X1_project_origin `{Runtime} (fs : Fs.Disk)
    (projects : list ProjectInfo.t) (p : ProjectInfo.t) :
  ClaudeDataProvider.getProjects fs = Return projects →
  p ∈ projects →
  ∃ listing entry content index,
    fs !! Fs.join ClaudeDataProvider.claudeDir "projects"
      = Some (Fs.Directory listing)
    ∧ (length projects ≤ length listing)%nat
    ∧ entry ∈ listing
    ∧ Fs.isDirectory entry = true
    ∧ fs !! Fs.join (Fs.join (Fs.join ClaudeDataProvider.claudeDir "projects")
                       (Fs.name entry)) "sessions-index.json"
      = Some (Fs.File content)
    ∧ JSON_parse_SessionsIndex content = Some index
    ∧ ProjectInfo.escapedPath p = Fs.name entry
    ∧ ProjectInfo.path p
      = JS.or_string (SessionsIndex.originalPath index)
          (ClaudeDataProvider.unescapePath (Fs.name entry))
    ∧ ProjectInfo.name p = path_basename (ProjectInfo.path p)
    ∧ ProjectInfo.sessions p
      ≡ₚ match SessionsIndex.entries index with
         | Some l => l
         | None => default [] (SessionsIndex.sessions index)
         end.
Proof.
  intros Hps Hp.
  apply getProjects_listing in Hps as [->|(listing & Hdir & ->)];
    [by inversion Hp|].
  apply sort_elem_of in Hp.
  apply visitEntry_origin in Hp as [Hp|(entry & Hin & Hisdir & Hr)];
    [by inversion Hp|].
  apply readProject_record in Hr
    as (content & index & Hfile & Hindex & Hesc & Hpath & Hname & Hss & _).
  exists listing, entry, content, index. split_and!; try done.
  rewrite (Permutation_length (sort_Permutation _ _)).
  apply (visitEntry_length fs _ listing []).
Qed.

Lemma X1_project_origin_witness :
  ∃ listing entry content index,
    Example.disk !! "/home/dev/.claude/projects" = Some (Fs.Directory listing)
    ∧ (length Example.projects ≤ length listing)%nat
    ∧ entry ∈ listing
    ∧ Fs.isDirectory entry = true
    ∧ Example.disk !! ("/home/dev/.claude/projects/" +:+ Fs.name entry
                       +:+ "/sessions-index.json") = Some (Fs.File content)
    ∧ JSON_parse_SessionsIndex (Runtime := Example.host Example.stats_week)
        content = Some index
    ∧ ProjectInfo.escapedPath Example.project_app = Fs.name entry
    ∧ ProjectInfo.path Example.project_app
      = JS.or_string (SessionsIndex.originalPath index)
          (ClaudeDataProvider.unescapePath (Fs.name entry))
    ∧ ProjectInfo.name Example.project_app
      = path_basename (Runtime := Example.host Example.stats_week)
          (ProjectInfo.path Example.project_app)
    ∧ ProjectInfo.sessions Example.project_app
      ≡ₚ match SessionsIndex.entries index with
         | Some l => l
         | None => default [] (SessionsIndex.sessions index)
         end.
Proof.
  apply (X1_project_origin (H := Example.host Example.stats_week)
           Example.disk Example.projects Example.project_app).
  - by vm_compute.
  - vm_compute; constructor.
Defined.

(** The [lastModified] of a project is the latest of the dates of its
    sessions and of the epoch: it is no earlier than any session date, it
    is never negative, and it is the date of one of the sessions unless it
    is the epoch itself.  Sessions with an invalid date do not count. *)
Theorem X2_project_lastModified `{Runtime} (fs : Fs.Disk)
    (projects : list ProjectInfo.t) (p : ProjectInfo.t) :
  ClaudeDataProvider.getProjects fs = Return projects →
  p ∈ projects →
  0 <= ProjectInfo.lastModified p
  ∧ (∀ s t, s ∈ ProjectInfo.sessions p → modifiedTime s = Some t →
            t <= ProjectInfo.lastModified p)
  ∧ (ProjectInfo.lastModified p = 0
     ∨ ∃ s, s ∈ ProjectInfo.sessions p
            ∧ modifiedTime s = Some (ProjectInfo.lastModified p)).
Proof.
  intros Hps Hp.
  apply getProjects_Return in Hps as (_ & _ & Hall).
  destruct (Hall p Hp) as (entry & ip & Hr).
  apply readProject_record in Hr as (_ & _ & _ & _ & _ & _ & _ & _ & Hlast).
  rewrite Hlast. split_and!.
  - apply (foldl_later_ge modifiedTime).
  - intros s t. apply (foldl_later_bound modifiedTime).
  - apply (foldl_later_attained modifiedTime).
Qed.

Lemma X2_project_lastModified_witness :
  0 <= ProjectInfo.lastModified Example.project_app
  ∧ ProjectInfo.lastModified Example.project_app = 1704412800000.
Proof.
  split; [|by vm_compute].
  apply (X2_project_lastModified (H := Example.host Example.stats_week)
           Example.disk Example.projects Example.project_app).
  - by vm_compute.
  - vm_compute; constructor.
Defined.

(** [getProjects] throws exactly when the projects path exists and is not
    a directory: the listing is read outside of any [try] block. *)
Theorem X3_getProjects_throws `{Runtime} (fs : Fs.Disk) :
  ClaudeDataProvider.getProjects fs = Throw
  ↔ ∃ content, fs !! Fs.join ClaudeDataProvider.claudeDir "projects"
               = Some (Fs.File content).
Proof.
  unfold ClaudeDataProvider.getProjects, Fs.existsSync, Fs.readdirSync.
  destruct (fs !! Fs.join ClaudeDataProvider.claudeDir "projects")
    as [[content|entries]|] eqn:Hroot.
  - rewrite bool_decide_eq_true_2 by eauto. simpl. split; [by eexists|done].
  - rewrite bool_decide_eq_true_2 by eauto. simpl.
    split; [done|by intros [? ?]].
  - rewrite bool_decide_eq_false_2 by (by intros [? ?]). simpl.
    split; [done|by intros [? ?]].
Qed.

(** An entry of the projects directory that is not a directory, has no
    index, or has an index that cannot be read or parsed, is passed over:
    the result is that of the listing without the entry. *)
Theorem X4_bad_project_entry_skipped `{Runtime} (fs : Fs.Disk)
    (before after : list Fs.Dirent) (e : Fs.Dirent) :
  let projectsDir := Fs.join ClaudeDataProvider.claudeDir "projects" in
  let indexPath := Fs.join (Fs.join projectsDir (Fs.name e)) "sessions-index.json" in
  fs !! projectsDir = Some (Fs.Directory (before ++ e :: after)) →
  Fs.isDirectory e = false
  ∨ fs !! indexPath = None
  ∨ (∃ entries, fs !! indexPath = Some (Fs.Directory entries))
  ∨ (∃ content, fs !! indexPath = Some (Fs.File content)
                ∧ JSON_parse_SessionsIndex content = None) →
  ClaudeDataProvider.getProjects fs
  = Return (JS.sort ClaudeDataProvider.byLastModified
              (foldl (ClaudeDataProvider.visitEntry fs projectsDir) []
                 (before ++ after))).
Proof.
  intros projectsDir indexPath Hdir Hbad.
  unfold ClaudeDataProvider.getProjects, Fs.existsSync, Fs.readdirSync.
  fold projectsDir. rewrite Hdir.
  rewrite bool_decide_eq_true_2 by eauto. simpl. do 2 f_equal.
  apply visitEntry_skip. intros acc'. unfold ClaudeDataProvider.visitEntry.
  fold indexPath.
  all: destruct Hbad as [->|[Hnone|[[es Hes]|(content & Hfile & Hparse)]]];
    [done|..].
  all: destruct (negb (Fs.isDirectory e)); [done|].
  all: unfold Fs.existsSync, ClaudeDataProvider.readProject, Fs.readFileSync.
  all: try (rewrite Hnone; by rewrite bool_decide_eq_false_2 by (by intros [? ?])).
  all: try (rewrite Hes; by rewrite bool_decide_eq_true_2 by eauto).
  all: rewrite Hfile; rewrite bool_decide_eq_true_2 by eauto; simpl;
    by rewrite Hparse.
Qed.

Lemma X4_bad_project_entry_skipped_witness :
  ClaudeDataProvider.getProjects (H := Example.host Example.stats_week) Example.disk
  = Return (JS.sort ClaudeDataProvider.byLastModified
              (foldl (ClaudeDataProvider.visitEntry
                        (H := Example.host Example.stats_week) Example.disk
                        "/home/dev/.claude/projects") []
                 ([Fs.mkDirent "-home-dev-app" true;
                   Fs.mkDirent "-home-dev-my-lib" true]
                  ++ [Fs.mkDirent "-home-dev-empty" true]))).
Proof.
  apply (X4_bad_project_entry_skipped (H := Example.host Example.stats_week)
           Example.disk _ _ (Fs.mkDirent "notes.txt" false)).
  - by vm_compute.
  - by left.
Defined.

(** ** More on the stats *)

Section stats_more.
Context `{Runtime}.
Import ClaudeDataProvider.

Lemma getStats_Some fs stats :
  getStats fs = Some stats
  ↔ ∃ content, fs !! Fs.join claudeDir "stats-cache.json" = Some (Fs.File content)
               ∧ JSON_parse_ClaudeStats content = Some stats.
Proof.
  unfold getStats, Fs.existsSync, Fs.readFileSync.
  destruct (fs !! Fs.join claudeDir "stats-cache.json") as [[content|es]|].
  - rewrite bool_decide_eq_true_2 by eauto. simpl. split.
    + intros Hs. by exists content.
    + by intros (? & [= <-] & ?).
  - rewrite bool_decide_eq_true_2 by eauto. simpl. split; [done|].
    by intros (? & ? & ?).
  - rewrite bool_decide_eq_false_2 by (by intros [? ?]). simpl.
    split; [done|]. by intros (? & ? & ?).
Qed.

Lemma find_first {A} (p : A → bool) (before after : list A) (a : A) :
  (∀ x, x ∈ before → p x = false) → p a = true →
  JS.find p (before ++ a :: after) = Some a.
Proof.
  unfold JS.find. intros Hbefore Ha.
  induction before as [|x before IH]; simpl; [by rewrite Ha|].
  rewrite (Hbefore x) by left. apply IH. intros y Hy. apply Hbefore. by right.
Qed.

End stats_more.

(** When [stats-cache.json] is missing, is a directory, or does not parse,
    nothing is reported as an error: [getStats] is [null], [getModelUsage]
    is the empty record and [getTodayStats] is the all-zero snapshot
    labelled with today's date. *)
Theorem X5_stats_unavailable `{Runtime} (fs : Fs.Disk) (today : string) :
  let statsPath := Fs.join ClaudeDataProvider.claudeDir "stats-cache.json" in
  fs !! statsPath = None
  ∨ (∃ entries, fs !! statsPath = Some (Fs.Directory entries))
  ∨ (∃ content, fs !! statsPath = Some (Fs.File content)
                ∧ JSON_parse_ClaudeStats content = None) →
  ClaudeDataProvider.getStats fs = None
  ∧ ClaudeDataProvider.getModelUsage fs = ∅
  ∧ ClaudeDataProvider.getTodayStats fs today = TodayStats.mk 0 0 0 0 today.
Proof.
  intros statsPath Hbad.
  assert (ClaudeDataProvider.getStats fs = None) as Hnone.
  { destruct (ClaudeDataProvider.getStats fs) as [stats|] eqn:Hs; [|done].
    apply getStats_Some in Hs as (content & Hfile & Hparse). fold statsPath in Hfile.
    destruct Hbad as [Hb|[[es Hb]|(c & Hb & Hp)]]; rewrite Hb in Hfile; try done.
    injection Hfile as ->. congruence. }
  split; [done|]. split.
  - unfold ClaudeDataProvider.getModelUsage. by rewrite Hnone.
  - unfold ClaudeDataProvider.getTodayStats. by rewrite Hnone.
Qed.

Lemma X5_stats_unavailable_witness :
  ClaudeDataProvider.getStats (H := Example.host Example.stats_week) ∅ = None
  ∧ ClaudeDataProvider.getModelUsage (H := Example.host Example.stats_week) ∅ = ∅
  ∧ ClaudeDataProvider.getTodayStats (H := Example.host Example.stats_week) ∅
      "2024-06-01" = TodayStats.mk 0 0 0 0 "2024-06-01".
Proof.
  apply (X5_stats_unavailable (H := Example.host Example.stats_week) ∅).
  left. apply lookup_empty.
Defined.

(** When the daily-activity list has an entry for today, the snapshot is
    that of the first such entry: its three counts, the label today, and
    as token total the sum of the per-model counts of the first token
    entry dated today (zero when there is none). *)
Theorem X6_snapshot_of_today `{Runtime} (fs : Fs.Disk) (today : string)
    (stats : ClaudeStats.t) (before after : list DailyActivity.t)
    (a : DailyActivity.t) :
  ClaudeDataProvider.getStats fs = Some stats →
  ClaudeStats.dailyActivity stats = Some (before ++ a :: after) →
  DailyActivity.date a = today →
  (∀ d, d ∈ before → DailyActivity.date d ≠ today) →
  ClaudeDataProvider.getTodayStats fs today
  = {| TodayStats.messages := DailyActivity.messageCount a;
       TodayStats.sessions := DailyActivity.sessionCount a;
       TodayStats.toolCalls := DailyActivity.toolCallCount a;
       TodayStats.totalTokens := sumCounts (tokensOn today stats);
       TodayStats.date := today |}.
Proof.
  intros Hstats Hl Ha Hbefore.
  apply (getTodayStats_today fs today stats (before ++ a :: after)); [done..|].
  apply find_first.
  - intros d Hd. apply bool_decide_eq_false_2. by apply Hbefore.
  - by apply bool_decide_eq_true_2.
Qed.

Lemma X6_snapshot_of_today_witness :
  ClaudeDataProvider.getTodayStats (H := Example.host Example.stats_week)
    Example.disk "2024-01-04"
  = TodayStats.mk 2 1 1 40 "2024-01-04".
Proof.
  rewrite (X6_snapshot_of_today (H := Example.host Example.stats_week)
             Example.disk "2024-01-04" Example.stats_week
             [Example.day "2024-01-01" 3 1 0; Example.day "2024-01-02" 5 1 2;
              Example.day "2024-01-03" 8 2 4]
             [Example.day "2024-01-05" 7 2 3]
             (Example.day "2024-01-04" 2 1 1)).
  - by vm_compute.
  - by vm_compute.
  - done.
  - done.
  - intros d Hd.
    repeat (apply elem_of_cons in Hd as [->|Hd]; [by vm_compute|]).
    by apply elem_of_nil in Hd.
Defined.

(** The date label of the snapshot is never empty (for a non-empty
    today): it is today's date, or else the non-empty date of the last
    entry of the daily-activity list. *)
Theorem X7_snapshot_label `{Runtime} (fs : Fs.Disk) (today : string) :
  today ≠ "" →
  TodayStats.date (ClaudeDataProvider.getTodayStats fs today) ≠ ""
  ∧ (TodayStats.date (ClaudeDataProvider.getTodayStats fs today) = today
     ∨ ∃ stats l a,
         ClaudeDataProvider.getStats fs = Some stats
         ∧ ClaudeStats.dailyActivity stats = Some l
         ∧ last l = Some a
         ∧ TodayStats.date (ClaudeDataProvider.getTodayStats fs today)
           = DailyActivity.date a).
Proof.
  intros Htoday.
  assert (TodayStats.date (ClaudeDataProvider.getTodayStats fs today) = today
          ∨ ∃ stats l a,
              ClaudeDataProvider.getStats fs = Some stats
              ∧ ClaudeStats.dailyActivity stats = Some l
              ∧ last l = Some a
              ∧ DailyActivity.date a ≠ ""
              ∧ TodayStats.date (ClaudeDataProvider.getTodayStats fs today)
                = DailyActivity.date a) as Hcases.
  { unfold ClaudeDataProvider.getTodayStats.
    destruct (ClaudeDataProvider.getStats fs) as [stats|] eqn:Hstats; [|by left].
    destruct (ClaudeStats.dailyActivity stats) as [l|] eqn:Hl; [|by left].
    case_decide; [by left|].
    destruct (JS.find _ l) as [a|]; [by left|].
    rewrite at_index_last.
    destruct (last l) as [a|] eqn:Hlast; simpl; [|by left].
    case_decide as Hdate; [by left|]. right. by exists stats, l, a. }
  destruct Hcases as [Heq|(stats & l & a & ? & ? & ? & Hne & Heq)].
  - split; [by rewrite Heq|by left].
  - split; [by rewrite Heq|]. right. by exists stats, l, a.
Qed.

Lemma X7_snapshot_label_witness :
  TodayStats.date
    (ClaudeDataProvider.getTodayStats (H := Example.host Example.stats_undated)
       Example.disk "2024-06-01") ≠ "".
Proof.
  apply (X7_snapshot_label (H := Example.host Example.stats_undated)
           Example.disk "2024-06-01").
  discriminate.
Defined.

(** ** More on the model usage *)

Section usage_more.
Context `{Runtime}.
Import ClaudeDataProvider.

Lemma filter_none {A} (P : A → Prop) `{∀ x, Decision (P x)} (l : list A) :
  (∀ x, x ∈ l → ¬ P x) → filter P l = [].
Proof.
  induction l as [|y l IH]; intros Hall; [done|].
  rewrite filter_cons_False by (apply Hall; by left).
  apply IH. intros x Hx. apply Hall. by right.
Qed.





End usage_more.





(** ** Short names and unescaped paths *)

Lemma split_head (sep : ascii) (s : string) :
  ∃ rest,
    s = default "" (head (JS.split sep s)) +:+ rest
    ∧ freeOf sep (default "" (head (JS.split sep s)))
    ∧ (rest = "" ∨ ∃ r, rest = String sep r).
Proof.
  induction s as [|c s (rest & Hs & Hfree & Hrest)]; simpl.
  - exists "". split_and!; [done..|by left].
  - case_decide as Hc; simpl.
    + exists (String c s). split_and!; [done..|]. right. exists s. by rewrite Hc.
    + destruct (JS.split sep s) as [|h t]; simpl in *.
      * exists rest. split_and!; try done. rewrite Hs at 1. reflexivity.
      * exists rest. split_and!; try done. rewrite Hs at 1. reflexivity.
Qed.

(** The short name of a model never contains a hyphen.  It is ["Opus"]
    for every identifier that contains [opus], else ["Sonnet"] for every
    one that contains [sonnet], else ["Haiku"] for every one that contains
    [haiku]; for every other identifier it is the part of the identifier
    before its first hyphen. *)
Theorem X10_short_name_shape (fullName : string) :
  freeOf "-" (ClaudeDataProvider.getShortModelName fullName)
  ∧ ((JS.includes "opus" fullName = true
      ∧ ClaudeDataProvider.getShortModelName fullName = "Opus")
     ∨ (JS.includes "opus" fullName = false
        ∧ JS.includes "sonnet" fullName = true
        ∧ ClaudeDataProvider.getShortModelName fullName = "Sonnet")
     ∨ (JS.includes "opus" fullName = false
        ∧ JS.includes "sonnet" fullName = false
        ∧ JS.includes "haiku" fullName = true
        ∧ ClaudeDataProvider.getShortModelName fullName = "Haiku")
     ∨ (JS.includes "opus" fullName = false
        ∧ JS.includes "sonnet" fullName = false
        ∧ JS.includes "haiku" fullName = false
        ∧ ∃ rest,
            fullName = ClaudeDataProvider.getShortModelName fullName +:+ rest
            ∧ (rest = "" ∨ ∃ r, rest = String "-" r))).
Proof.
  unfold ClaudeDataProvider.getShortModelName.
  destruct (JS.includes "opus" fullName).
  { split; [simpl; repeat split; discriminate|by left]. }
  destruct (JS.includes "sonnet" fullName).
  { split; [simpl; repeat split; discriminate|by right; left]. }
  destruct (JS.includes "haiku" fullName).
  { split; [simpl; repeat split; discriminate|by right; right; left]. }
  destruct (split_head "-" fullName) as (rest & Hs & Hfree & Hrest).
  split; [done|]. do 3 right. split_and!; [done..|]. by exists rest.
Qed.

(** An unescaped path never contains a hyphen, has the length of the
    directory name it comes from, and unescaping it again changes
    nothing. *)
Theorem X11_unescapePath_shape (escapedPath : string) :
  freeOf "-" (ClaudeDataProvider.unescapePath escapedPath)
  ∧ String.length (ClaudeDataProvider.unescapePath escapedPath)
    = String.length escapedPath
  ∧ ClaudeDataProvider.unescapePath (ClaudeDataProvider.unescapePath escapedPath)
    = ClaudeDataProvider.unescapePath escapedPath.
Proof.
  unfold ClaudeDataProvider.unescapePath.
  induction escapedPath as [|c s (Hfree & Hlen & Hidem)]; simpl; [done|].
  split_and!.
  - case_decide; [discriminate|done].
  - done.
  - by rewrite Hlen.
  - rewrite Hidem. f_equal. repeat case_decide; congruence.
Qed.

(** ** More on the history and on relative times *)

Section history_more.
Context `{Runtime}.
Import ClaudeDataProvider.

Lemma getRecentHistory_no_file fs limit :
  (∀ content, fs !! Fs.join claudeDir "history.jsonl" ≠ Some (Fs.File content)) →
  getRecentHistory fs limit = [].
Proof.
  intros Hno. unfold getRecentHistory, Fs.readFileSync.
  destruct (negb _); [done|].
  destruct (fs !! Fs.join claudeDir "history.jsonl") as [[content|]|] eqn:Hf;
    [by destruct (Hno content)|done..].
Qed.

Lemma omap_drop_prefix {A B} (f : A → option B) (l : list A) (a b : nat) :
  (b ≤ a)%nat →
  reverse (omap f (drop a l)) `prefix_of` reverse (omap f (drop b l)).
Proof.
  intros Hle.
  replace a with (b + (a - b))%nat by lia. rewrite <- drop_drop.
  rewrite <- (take_drop (a - b) (drop b l)) at 2.
  rewrite omap_app, reverse_app. by apply prefix_app_r.
Qed.

End history_more.

(** When [history.jsonl] is missing or is a directory, [getRecentHistory]
    returns the empty list for every limit. *)
Theorem X12_history_unavailable `{Runtime} (fs : Fs.Disk) (limit : Z) :
  let historyPath := Fs.join ClaudeDataProvider.claudeDir "history.jsonl" in
  fs !! historyPath = None
  ∨ (∃ entries, fs !! historyPath = Some (Fs.Directory entries)) →
  ClaudeDataProvider.getRecentHistory fs limit = [].
Proof.
  intros historyPath Hbad. apply getRecentHistory_no_file. fold historyPath.
  intros content Hfile.
  destruct Hbad as [Hb|[es Hb]]; rewrite Hb in Hfile; done.
Qed.

Lemma X12_history_unavailable_witness :
  ClaudeDataProvider.getRecentHistory (H := Example.host Example.stats_week) ∅ 20
  = [].
Proof.
  apply (X12_history_unavailable (H := Example.host Example.stats_week) ∅ 20).
  left. apply lookup_empty.
Defined.

(** A negative limit does not select a tail: [lines.slice(-limit)] then
    starts at the index [-limit], so the result holds the entries of all
    lines but the first [-limit] ones, newest first. *)
Theorem X13_history_negative_limit `{Runtime} (fs : Fs.Disk) (limit : Z)
    (content : string) :
  fs !! Fs.join ClaudeDataProvider.claudeDir "history.jsonl"
    = Some (Fs.File content) →
  limit < 0 →
  ClaudeDataProvider.getRecentHistory fs limit
  = reverse (omap JSON_parse_HistoryEntry
               (drop (Z.to_nat (- limit))
                  (ClaudeDataProvider.historyLines content))).
Proof.
  intros Hfile Hneg. rewrite (getRecentHistory_file _ _ _ Hfile).
  unfold JS.slice. rewrite decide_False by lia.
  destruct (decide (- limit
                    <= Z.of_nat (length (ClaudeDataProvider.historyLines content)))).
  - by rewrite Z.min_l by lia.
  - rewrite Z.min_r by lia. rewrite Nat2Z.id.
    by rewrite !drop_ge by lia.
Qed.

Lemma X13_history_negative_limit_witness :
  ClaudeDataProvider.getRecentHistory (H := Example.host Example.stats_week)
    Example.disk (-1)
  = [Example.entry "third" 3; Example.entry "second" 2].
Proof.
  rewrite (X13_history_negative_limit (H := Example.host Example.stats_week)
             Example.disk (-1)
             ("h1" +:+ String "010" ("broken" +:+ String "010" ("h2"
              +:+ String "010" "h3")))).
  - by vm_compute.
  - by vm_compute.
  - lia.
Defined.

(** Raising a positive limit only adds older entries at the end: the
    result for a limit is a prefix of the result for every greater limit;
    and a limit that reaches the number of lines returns every entry that
    parses. *)
Theorem X14_history_limit_monotone `{Runtime} (fs : Fs.Disk) (k k' : Z) :
  0 < k → k <= k' →
  ClaudeDataProvider.getRecentHistory fs k
    `prefix_of` ClaudeDataProvider.getRecentHistory fs k'
  ∧ ∀ content,
      fs !! Fs.join ClaudeDataProvider.claudeDir "history.jsonl"
        = Some (Fs.File content) →
      Z.of_nat (length (ClaudeDataProvider.historyLines content)) <= k →
      ClaudeDataProvider.getRecentHistory fs k
      = reverse (omap JSON_parse_HistoryEntry
                   (ClaudeDataProvider.historyLines content)).
Proof.
  intros Hk Hkk'. split.
  - destruct (fs !! Fs.join ClaudeDataProvider.claudeDir "history.jsonl")
      as [[content|es]|] eqn:Hfile.
    + rewrite !(getRecentHistory_file _ _ _ Hfile), !slice_last by lia.
      apply omap_drop_prefix. lia.
    + rewrite !getRecentHistory_no_file; [done|intros c Hc..]; congruence.
    + rewrite !getRecentHistory_no_file; [done|intros c Hc..]; congruence.
  - intros content Hfile Hlen.
    rewrite (getRecentHistory_file _ _ _ Hfile), slice_last by lia.
    by replace (length (ClaudeDataProvider.historyLines content) - Z.to_nat k)%nat
      with 0%nat by lia.
Qed.

Lemma X14_history_limit_monotone_witness :
  ClaudeDataProvider.getRecentHistory (H := Example.host Example.stats_week)
    Example.disk 1
  `prefix_of` ClaudeDataProvider.getRecentHistory
                (H := Example.host Example.stats_week) Example.disk 3.
Proof.
  apply (X14_history_limit_monotone (H := Example.host Example.stats_week)
           Example.disk 1 3); lia.
Defined.

(** The two providers format relative times alike, and the number shown
    is never zero and never reaches the next unit: the result is
    ["just now"], or 1 to 59 minutes, or 1 to 23 hours, or 1 to 6 days,
    or, from seven days on, the localized date. *)
Theorem X15_relative_time_range `{Runtime} (now date : Z) :
  CodexAggregates.formatRelativeTime now date
  = ClaudeDataProvider.formatRelativeTime now date
  ∧ (ClaudeDataProvider.formatRelativeTime now date = "just now"
     ∨ (∃ n, 1 <= n <= 59
             ∧ ClaudeDataProvider.formatRelativeTime now date
               = pretty n +:+ "m ago")
     ∨ (∃ n, 1 <= n <= 23
             ∧ ClaudeDataProvider.formatRelativeTime now date
               = pretty n +:+ "h ago")
     ∨ (∃ n, 1 <= n <= 6
             ∧ ClaudeDataProvider.formatRelativeTime now date
               = pretty n +:+ "d ago")
     ∨ (604800000 <= now - date
        ∧ ClaudeDataProvider.formatRelativeTime now date
          = Date_toLocaleDateString date)).
Proof.
  split; [done|].
  destruct (decide (now - date < 60000)).
  { left. by apply formatRelativeTime_just_now. }
  destruct (decide (now - date < 3600000)).
  { right; left. exists ((now - date) `div` 60000).
    pose proof (div_bounds (now - date) 60000).
    split; [lia|]. apply formatRelativeTime_minutes. lia. }
  destruct (decide (now - date < 86400000)).
  { right; right; left. exists ((now - date) `div` 3600000).
    pose proof (div_bounds (now - date) 3600000).
    split; [lia|]. apply formatRelativeTime_hours. lia. }
  destruct (decide (now - date < 604800000)).
  { right; right; right; left. exists ((now - date) `div` 86400000).
    pose proof (div_bounds (now - date) 86400000).
    split; [lia|]. apply formatRelativeTime_days. lia. }
  do 4 right. split; [lia|]. apply formatRelativeTime_date. lia.
Qed.

(** ** More on the Codex scanner *)

Section scanner_more.
Context `{Runtime}.
Import CodexDataProvider.

Lemma parseSessionFile_Some fs filePath s :
  parseSessionFile fs filePath = Some s
  ↔ ∃ content ev meta,
      fs !! filePath = Some (Fs.File content)
      ∧ JSON_parse_FirstEvent (firstLineOf content) = Some ev
      ∧ FirstEvent.type ev = Some "session_meta"
      ∧ FirstEvent.payload ev = Some meta
      ∧ s = {| CodexSession.id := SessionMeta.id meta;
               CodexSession.timestamp := SessionMeta.timestamp meta;
               CodexSession.cwd := SessionMeta.cwd meta;
               CodexSession.model_provider :=
                 JS.or_string (SessionMeta.model_provider meta) "openai";
               CodexSession.cli_version := SessionMeta.cli_version meta;
               CodexSession.source :=
                 JS.or_string (SessionMeta.source meta) "cli";
               CodexSession.filePath := filePath;
               CodexSession.fileSize := Z.of_nat (String.length content) |}.
Proof.
  unfold parseSessionFile, Fs.readFileSync, Fs.statSize. split.
  - intros Hs.
    destruct (fs !! filePath) as [[content|es]|] eqn:Hfile; simpl in Hs;
      [|done..].
    fold (firstLineOf content) in Hs.
    destruct (JSON_parse_FirstEvent (firstLineOf content)) as [ev|] eqn:Hev;
      simpl in Hs; [|done].
    case_bool_decide as Htype; [|done].
    destruct (FirstEvent.payload ev) as [meta|] eqn:Hpayload; [|done].
    simpl in Hs. injection Hs as <-. by exists content, ev, meta.
  - intros (content & ev & meta & Hfile & Hev & Htype & Hpayload & ->).
    rewrite Hfile. simpl. fold (firstLineOf content). rewrite Hev. simpl.
    rewrite bool_decide_eq_true_2 by done. by rewrite Hpayload.
Qed.

Lemma or_string_default_nonempty (a : option string) (d : string) :
  d ≠ "" → JS.or_string a d ≠ "".
Proof. intros Hd. unfold JS.or_string. destruct a; [case_decide|]; done. Qed.

Lemma keeps_scanYear_depth fs sessionsDir year :
  keeps (atDepthThree sessionsDir) (scanYear fs sessionsDir year).
Proof.
  unfold scanYear. destruct (negb _); [apply keeps_ret|].
  apply keeps_bind; [apply keeps_lift|]. intros months.
  apply keeps_forEach. intros month.
  unfold scanMonth. destruct (negb _); [apply keeps_ret|].
  apply keeps_bind; [apply keeps_lift|]. intros days.
  apply keeps_forEach. intros day.
  unfold scanDay. destruct (negb _); [apply keeps_ret|].
  apply keeps_bind; [apply keeps_lift|]. intros files.
  apply keeps_forEach. intros file.
  unfold scanFile. destruct (JS.endsWith ".jsonl" file) eqn:Hext; simpl;
    [|apply keeps_ret].
  destruct (parseSessionFile fs _) as [session|] eqn:Hparse; [|apply keeps_ret].
  intros sessions HP s Hs. simpl in Hs.
  apply elem_of_app in Hs as [Hs|Hs]; [by apply HP|].
  apply list_elem_of_singleton in Hs as ->.
  rewrite (parseSessionFile_filePath _ _ _ Hparse).
  by exists (Fs.name year), (Fs.name month), (Fs.name day), file.
Qed.

Lemma getSessions_depth fs :
  atDepthThree (Fs.join codexDir "sessions") (getSessions fs).
Proof.
  unfold getSessions. destruct (negb _); [by intros s Hs; inversion Hs|].
  simpl. intros s Hs. apply sort_elem_of in Hs. revert s Hs.
  apply (keeps_bind (atDepthThree _)); [apply keeps_lift| |].
  - intros years. apply keeps_forEach. intros year. apply keeps_scanYear_depth.
  - intros s Hs. inversion Hs.
Qed.

Lemma forEach_abort {A} (body : A → Scan.t unit) (x : A) (before after : list A)
    (sessions : list CodexSession.t) :
  (∀ ss, body x ss = (ss, Throw)) →
  (Scan.forEach (before ++ x :: after) body sessions).1
  = (Scan.forEach before body sessions).1.
Proof.
  intros Hthrow. revert sessions.
  induction before as [|y before IH]; intros sessions; simpl.
  - unfold Scan.bind. by rewrite Hthrow.
  - unfold Scan.bind. destruct (body y sessions) as [ss [[]|]]; [apply IH|done].
Qed.

End scanner_more.

(** [parseSessionFile] yields a session exactly for a file whose first
    line parses to an event of type ['session_meta'] with a payload; the
    session then has the fields of the payload, ['openai'] and ['cli'] in
    place of a missing or empty provider and source, the path it was read
    from and the byte length of the file. *)
Theorem X16_parseSessionFile_result `{Runtime} (fs : Fs.Disk)
    (filePath : string) (s : CodexSession.t) :
  CodexDataProvider.parseSessionFile fs filePath = Some s
  ↔ ∃ content ev meta,
      fs !! filePath = Some (Fs.File content)
      ∧ JSON_parse_FirstEvent (firstLineOf content) = Some ev
      ∧ FirstEvent.type ev = Some "session_meta"
      ∧ FirstEvent.payload ev = Some meta
      ∧ s = {| CodexSession.id := SessionMeta.id meta;
               CodexSession.timestamp := SessionMeta.timestamp meta;
               CodexSession.cwd := SessionMeta.cwd meta;
               CodexSession.model_provider :=
                 JS.or_string (SessionMeta.model_provider meta) "openai";
               CodexSession.cli_version := SessionMeta.cli_version meta;
               CodexSession.source :=
                 JS.or_string (SessionMeta.source meta) "cli";
               CodexSession.filePath := filePath;
               CodexSession.fileSize := Z.of_nat (String.length content) |}.
Proof. apply parseSessionFile_Some. Qed.

(** Every session that [getSessions] returns names a file of the disk
    whose first line is recognised, carries the size of that file, and has
    a provider and a source that are never empty. *)
Theorem X17_sessions_well_formed `{Runtime} (fs : Fs.Disk) (s : CodexSession.t) :
  s ∈ CodexDataProvider.getSessions fs →
  CodexSession.model_provider s ≠ ""
  ∧ CodexSession.source s ≠ ""
  ∧ ∃ content,
      fs !! CodexSession.filePath s = Some (Fs.File content)
      ∧ recognised (firstLineOf content)
      ∧ CodexSession.fileSize s = Z.of_nat (String.length content).
Proof.
  intros Hs. apply getSessions_parsedFrom in Hs.
  apply parseSessionFile_Some in Hs
    as (content & ev & meta & Hfile & Hev & Htype & Hpayload & Heq).
  split_and!.
  - rewrite Heq. simpl. by apply or_string_default_nonempty.
  - rewrite Heq. simpl. by apply or_string_default_nonempty.
  - exists content. split_and!; [done|by exists ev, meta|by rewrite Heq].
Qed.

Lemma X17_sessions_well_formed_witness :
  CodexSession.model_provider
    {| CodexSession.id := "b"; CodexSession.timestamp := "2024-01-05";
       CodexSession.cwd := "/home/dev/app"; CodexSession.model_provider := "openai";
       CodexSession.cli_version := "0.1"; CodexSession.source := "cli";
       CodexSession.filePath := "/home/dev/.codex/sessions/2024/01/05/b.jsonl";
       CodexSession.fileSize := 6 |} ≠ "".
Proof.
  refine (proj1 (X17_sessions_well_formed (H := Example.host Example.stats_week)
                   Example.disk _ _)).
  vm_compute. constructor.
Defined.

(** [getSessions] only returns files that lie exactly three directories
    below the sessions directory (year, month, day) and whose name ends in
    [.jsonl]. *)
Theorem X18_sessions_at_depth_three `{Runtime} (fs : Fs.Disk) (s : CodexSession.t) :
  s ∈ CodexDataProvider.getSessions fs →
  ∃ year month day file,
    CodexSession.filePath s
    = Fs.join (Fs.join (Fs.join (Fs.join
                 (Fs.join CodexDataProvider.codexDir "sessions") year) month) day)
        file
    ∧ JS.endsWith ".jsonl" file = true.
Proof. apply getSessions_depth. Qed.

Lemma X18_sessions_at_depth_three_witness :
  ∃ year month day file,
    "/home/dev/.codex/sessions/2024/01/05/b.jsonl"
    = Fs.join (Fs.join (Fs.join (Fs.join "/home/dev/.codex/sessions" year) month)
                 day) file
    ∧ JS.endsWith ".jsonl" file = true.
Proof.
  apply (X18_sessions_at_depth_three (H := Example.host Example.stats_week)
           Example.disk
           {| CodexSession.id := "b"; CodexSession.timestamp := "2024-01-05";
              CodexSession.cwd := "/home/dev/app";
              CodexSession.model_provider := "openai";
              CodexSession.cli_version := "0.1"; CodexSession.source := "cli";
              CodexSession.filePath :=
                "/home/dev/.codex/sessions/2024/01/05/b.jsonl";
              CodexSession.fileSize := 6 |}).
  vm_compute. constructor.
Defined.

(** A year entry that is flagged as a directory but cannot be listed ends
    the whole walk: the exception is swallowed, the sessions found before
    it are kept, and the years listed after it are never visited. *)
Theorem X19_unlistable_year_ends_walk `{Runtime} (fs : Fs.Disk)
    (before after : list Fs.Dirent) (year : Fs.Dirent) :
  let sessionsDir := Fs.join CodexDataProvider.codexDir "sessions" in
  fs !! sessionsDir = Some (Fs.Directory (before ++ year :: after)) →
  Fs.isDirectory year = true →
  (∀ entries, fs !! Fs.join sessionsDir (Fs.name year)
              ≠ Some (Fs.Directory entries)) →
  CodexDataProvider.getSessions fs
  = JS.sort CodexDataProvider.byTimestamp
      (Scan.run (Scan.forEach before (CodexDataProvider.scanYear fs sessionsDir))).
Proof.
  intros sessionsDir Hdir Hflag Hbad.
  unfold CodexDataProvider.getSessions, Fs.existsSync. fold sessionsDir.
  rewrite Hdir. rewrite bool_decide_eq_true_2 by eauto. simpl. f_equal.
  unfold Scan.run, Scan.bind, Scan.lift, Fs.readdirSync. rewrite Hdir.
  apply forEach_abort. intros ss.
  unfold CodexDataProvider.scanYear, Scan.bind, Scan.lift, Fs.readdirSync.
  rewrite Hflag. simpl.
  destruct (fs !! Fs.join sessionsDir (Fs.name year)) as [[c|es]|] eqn:Hy;
    [done| |done].
  by destruct (Hbad es).
Qed.

Lemma X19_unlistable_year_ends_walk_witness :
  CodexDataProvider.getSessions (H := Example.host Example.stats_week)
    (<["/home/dev/.codex/sessions" :=
         Example.dir [("2023", true); ("2024", true)]]> Example.disk)
  = [].
Proof.
  rewrite (X19_unlistable_year_ends_walk (H := Example.host Example.stats_week)
             _ [] [Fs.mkDirent "2024" true] (Fs.mkDirent "2023" true)).
  - by vm_compute.
  - by vm_compute.
  - done.
  - intros entries. by vm_compute.
Defined.

(** ** The Codex projects *)

Section JSMap_facts.
Context {V : Type}.
Implicit Types (m : JSMap.t V) (k : string) (v : V).

Lemma JSMap_get_set m k v k' :
  JSMap.get (JSMap.set m k v) k' = if decide (k = k') then Some v else JSMap.get m k'.
Proof.
  induction m as [|[k0 v0] m IH]; simpl.
  - by repeat case_decide.
  - destruct (decide (k0 = k)) as [->|Hne]; simpl.
    + by repeat case_decide.
    + rewrite IH. repeat case_decide; congruence.
Qed.

Lemma JSMap_keys_set m k v :
  (JSMap.set m k v).*1 = if decide (k ∈ m.*1) then m.*1 else m.*1 ++ [k].
Proof.
  induction m as [|[k0 v0] m IH]; [|cbn [JSMap.set]].
  - by rewrite decide_False by (by intros ?%elem_of_nil).
  - destruct (decide (k0 = k)) as [->|Hne]; rewrite !fmap_cons; cbn [fst].
    + rewrite decide_True; [done|by left].
    + rewrite IH. destruct (decide (k ∈ m.*1)).
      * rewrite decide_True; [done|by right].
      * rewrite decide_False; [done|]. intros [?|?]%elem_of_cons; congruence.
Qed.

Lemma JSMap_NoDup_set m k v : NoDup m.*1 → NoDup (JSMap.set m k v).*1.
Proof.
  intros Hnd. rewrite JSMap_keys_set. case_decide; [done|].
  apply NoDup_app. split_and!; [done| |apply NoDup_singleton].
  intros x Hx ->%list_elem_of_singleton. done.
Qed.

Lemma JSMap_get_elem_of m k v : NoDup m.*1 → (k, v) ∈ m → JSMap.get m k = Some v.
Proof.
  induction m as [|[k0 v0] m IH]; intros Hnd Hin; [by inversion Hin|].
  simpl in *. apply NoDup_cons in Hnd as [Hk0 Hnd].
  apply elem_of_cons in Hin as [[= -> ->]|Hin]; [by rewrite decide_True|].
  rewrite decide_False; [by apply IH|].
  intros ->. apply Hk0. by apply (list_elem_of_fmap_2 fst _ (k, v)).
Qed.

Lemma JSMap_elem_of_get m k v : JSMap.get m k = Some v → (k, v) ∈ m.
Proof.
  induction m as [|[k0 v0] m IH]; simpl; [done|].
  case_decide as Hk; [intros [= ->]; subst; by left|]. intros Hg. right. by apply IH.
Qed.

Lemma JSMap_total_set (f : V → Z) m k v :
  foldr (λ e acc, f e.2 + acc) 0 (JSMap.set m k v)
  = foldr (λ e acc, f e.2 + acc) 0 m
    - from_option f 0 (JSMap.get m k) + f v.
Proof.
  induction m as [|[k0 v0] m IH]; simpl; [lia|].
  case_decide; simpl; [lia|]. rewrite IH. lia.
Qed.

End JSMap_facts.

Section codex_projects.
Context `{Runtime}.
Import CodexAggregates.

Lemma sessionsIn_snoc k l s :
  sessionsIn k (l ++ [s])
  = if decide (CodexSession.cwd s = k) then sessionsIn k l ++ [s]
    else sessionsIn k l.
Proof.
  unfold sessionsIn. rewrite filter_app.
  case_decide.
  - by rewrite filter_cons_True.
  - rewrite filter_cons_False by done. by rewrite filter_nil, app_nil_r.
Qed.

Lemma sessionsIn_absent k l : k ∉ CodexSession.cwd <$> l → sessionsIn k l = [].
Proof.
  intros Hk. apply filter_none. intros s Hs Heq. apply Hk.
  rewrite <- Heq. by apply list_elem_of_fmap_2.
Qed.

Lemma sessionsIn_present k l : k ∈ CodexSession.cwd <$> l → sessionsIn k l ≠ [].
Proof.
  intros (s & -> & Hs)%list_elem_of_fmap_1 Hnil.
  assert (s ∈ sessionsIn (CodexSession.cwd s) l) as Hin
    by by apply list_elem_of_filter.
  rewrite Hnil in Hin. by inversion Hin.
Qed.

Lemma groupSession_grouped projectMap done s :
  grouped projectMap done → grouped (groupSession projectMap s) (done ++ [s]).
Proof.
  intros [Hnd Hget]. unfold groupSession.
  set (k0 := CodexSession.cwd s).
  set (m1 := if negb (JSMap.has projectMap k0) then _ else projectMap).
  assert (NoDup m1.*1) as Hnd1.
  { unfold m1. destruct (negb _); [by apply JSMap_NoDup_set|done]. }
  assert (JSMap.get m1 k0 = Some (projectOf k0 done)) as Hk0.
  { unfold m1, JSMap.has. rewrite Hget.
    destruct (decide (k0 ∈ CodexSession.cwd <$> done)) as [Hin|Hout].
    - rewrite bool_decide_eq_true_2 by eauto. simpl. rewrite Hget.
      by rewrite decide_True.
    - rewrite bool_decide_eq_false_2 by (by intros [? ?]). simpl.
      rewrite JSMap_get_set, decide_True by done. f_equal.
      unfold projectOf. by rewrite sessionsIn_absent. }
  assert (∀ k, k ≠ k0 → JSMap.get m1 k = JSMap.get projectMap k) as Hother.
  { intros k Hk. unfold m1. destruct (negb _); [|done].
    rewrite JSMap_get_set. by rewrite decide_False. }
  rewrite Hk0. split; [by apply JSMap_NoDup_set|].
  intros k. rewrite JSMap_get_set, fmap_app. simpl.
  destruct (decide (k0 = k)) as [<-|Hne].
  - rewrite decide_True by (apply elem_of_app; right; by left). f_equal.
    unfold projectOf. rewrite sessionsIn_snoc, decide_True by done. simpl.
    f_equal; [by rewrite length_app; simpl; lia|by rewrite foldl_app].
  - rewrite Hother, Hget by done.
    assert (projectOf k (done ++ [s]) = projectOf k done) as ->.
    { unfold projectOf. by rewrite sessionsIn_snoc, decide_False. }
    destruct (decide (k ∈ CodexSession.cwd <$> done)) as [Hin|Hout].
    + rewrite decide_True; [done|]. apply elem_of_app. by left.
    + rewrite decide_False; [done|].
      intros [?|Hs%list_elem_of_singleton]%elem_of_app; [done|].
      apply Hne. by rewrite Hs.
Qed.

Lemma foldl_groupSession_grouped projectMap done l :
  grouped projectMap done →
  grouped (foldl groupSession projectMap l) (done ++ l).
Proof.
  revert projectMap done. induction l as [|s l IH]; intros m done Hg; simpl.
  - by rewrite app_nil_r.
  - replace (done ++ s :: l) with ((done ++ [s]) ++ l) by by rewrite <- app_assoc.
    apply IH. by apply groupSession_grouped.
Qed.

Lemma grouped_sessions (sessions : list CodexSession.t) :
  grouped (foldl groupSession [] sessions) sessions.
Proof.
  apply (foldl_groupSession_grouped [] []). split; [constructor|].
  intros k. by rewrite decide_False by (by intros ?%elem_of_nil).
Qed.

Lemma groupSession_total projectMap s :
  sumTotalSessions (JSMap.values (groupSession projectMap s))
  = sumTotalSessions (JSMap.values projectMap) + 1.
Proof.
  assert (∀ m : JSMap.t CodexProjectInfo.t,
            sumTotalSessions (JSMap.values m)
            = foldr (λ e acc, CodexProjectInfo.totalSessions e.2 + acc) 0 m)
    as Hsum.
  { intros m. unfold sumTotalSessions, JSMap.values.
    induction m as [|e m IH]; [done|]. simpl. f_equal. apply IH. }
  rewrite !Hsum. unfold groupSession.
  set (k0 := CodexSession.cwd s).
  destruct (JSMap.has projectMap k0) eqn:Hhas; simpl.
  - apply bool_decide_eq_true_1 in Hhas as [p Hp]. rewrite Hp.
    rewrite JSMap_total_set, Hp. simpl. lia.
  - apply bool_decide_eq_false_1 in Hhas.
    rewrite JSMap_get_set, decide_True by done.
    rewrite !JSMap_total_set, JSMap_get_set, decide_True by done. simpl.
    destruct (JSMap.get projectMap k0) as [p|] eqn:Hp; [|simpl; lia].
    destruct Hhas. by exists p.
Qed.

Lemma foldl_groupSession_total projectMap l :
  sumTotalSessions (JSMap.values (foldl groupSession projectMap l))
  = sumTotalSessions (JSMap.values projectMap) + Z.of_nat (length l).
Proof.
  revert projectMap. induction l as [|s l IH]; intros m; simpl; [lia|].
  rewrite IH, groupSession_total. lia.
Qed.

Lemma sumTotalSessions_Permutation (l k : list CodexProjectInfo.t) :
  l ≡ₚ k → sumTotalSessions l = sumTotalSessions k.
Proof. induction 1; simpl; lia. Qed.

Lemma getProjects_elem_of fs p :
  p ∈ getProjects fs
  ↔ CodexProjectInfo.path p ∈ CodexSession.cwd <$> CodexDataProvider.getSessions fs
    ∧ p = projectOf (CodexProjectInfo.path p) (CodexDataProvider.getSessions fs).
Proof.
  unfold getProjects. rewrite sort_elem_of.
  destruct (grouped_sessions (CodexDataProvider.getSessions fs)) as [Hnd Hget].
  unfold JSMap.values. split.
  - intros ([k q] & -> & Hin)%list_elem_of_fmap_1. simpl.
    pose proof (JSMap_get_elem_of _ _ _ Hnd Hin) as Hk. rewrite Hget in Hk.
    case_decide; [|done]. injection Hk as <-. simpl. by split.
  - intros [Hin Hp]. apply (list_elem_of_fmap_2' snd _ (CodexProjectInfo.path p, p));
      [|done].
    apply JSMap_elem_of_get. rewrite Hget, decide_True by done. by rewrite <- Hp.
Qed.

End codex_projects.

Section codex_projects_results.
Context `{Runtime}.
Import CodexAggregates.

Lemma grouped_paths (projectMap : JSMap.t CodexProjectInfo.t) done :
  grouped projectMap done →
  CodexProjectInfo.path <$> JSMap.values projectMap = projectMap.*1.
Proof.
  intros [Hnd Hget].
  assert (∀ e, e ∈ projectMap → CodexProjectInfo.path e.2 = e.1) as Hall.
  { intros [k p] Hin. simpl.
    pose proof (JSMap_get_elem_of _ _ _ Hnd Hin) as Hk. rewrite Hget in Hk.
    case_decide; [|done]. by injection Hk as <-. }
  clear Hnd Hget. unfold JSMap.values.
  induction projectMap as [|e m IH]; [done|].
  rewrite !fmap_cons. f_equal; [apply Hall; by left|].
  apply IH. intros e' He'. apply Hall. by right.
Qed.

Lemma distinct_from (seen l : list string) :
  NoDup seen →
  NoDup (foldl (λ seen x, if bool_decide (x ∈ seen) then seen else seen ++ [x])
           seen l)
  ∧ ∀ x, x ∈ foldl (λ seen x, if bool_decide (x ∈ seen) then seen
                               else seen ++ [x]) seen l
         ↔ x ∈ seen ∨ x ∈ l.
Proof.
  revert seen. induction l as [|y l IH]; intros seen Hnd; simpl.
  - split; [done|]. intros x. split; [by left|]. by intros [?|?%elem_of_nil].
  - case_bool_decide as Hy.
    + destruct (IH seen Hnd) as [Hnd' Hin]. split; [done|].
      intros x. rewrite Hin, elem_of_cons. split; [tauto|].
      intros [?|[->|?]]; tauto.
    + assert (NoDup (seen ++ [y])) as Hnd1.
      { apply NoDup_app. split_and!; [done| |apply NoDup_singleton].
        by intros x Hx ->%list_elem_of_singleton. }
      destruct (IH _ Hnd1) as [Hnd' Hin]. split; [done|].
      intros x. rewrite Hin, elem_of_app, list_elem_of_singleton, elem_of_cons.
      tauto.
Qed.

Lemma distinct_spec (l : list string) :
  NoDup (distinct l) ∧ ∀ x, x ∈ distinct l ↔ x ∈ l.
Proof.
  destruct (distinct_from [] l) as [Hnd Hin]; [constructor|].
  split; [done|]. intros x. unfold distinct. rewrite Hin.
  split; [by intros [?%elem_of_nil|?]|by right].
Qed.

End codex_projects_results.

(** The Codex [getProjects] groups the scanned sessions by working
    directory: there is exactly one project for each working directory of
    a session, project paths are pairwise distinct, and the project of a
    directory holds the sessions of that directory in the order of
    [getSessions], their number as [totalSessions], and the base name of
    the directory as name. *)
Theorem X20_codex_projects_by_cwd `{Runtime} (fs : Fs.Disk) :
  (∀ p, p ∈ CodexAggregates.getProjects fs
        ↔ CodexProjectInfo.path p
            ∈ CodexSession.cwd <$> CodexDataProvider.getSessions fs
          ∧ p = projectOf (CodexProjectInfo.path p)
                  (CodexDataProvider.getSessions fs))
  ∧ NoDup (CodexProjectInfo.path <$> CodexAggregates.getProjects fs).
Proof.
  split; [apply getProjects_elem_of|].
  unfold CodexAggregates.getProjects.
  rewrite (sort_Permutation CodexAggregates.byLastModified).
  pose proof (grouped_sessions (CodexDataProvider.getSessions fs)) as Hg.
  rewrite (grouped_paths _ _ Hg). apply Hg.
Qed.

Lemma X20_codex_projects_by_cwd_witness :
  projectOf (H := Example.host Example.stats_week) "/home/dev/app"
    (CodexDataProvider.getSessions (H := Example.host Example.stats_week)
       Example.disk)
  ∈ CodexAggregates.getProjects (H := Example.host Example.stats_week)
      Example.disk.
Proof.
  apply (proj1 (X20_codex_projects_by_cwd
                  (H := Example.host Example.stats_week) Example.disk)).
  split; [|done]. vm_compute. constructor.
Defined.

(** No session is lost or counted twice by the grouping: the
    [totalSessions] of the Codex projects add up to the number of scanned
    sessions, and every project has at least one session. *)
Theorem X21_codex_projects_cover_sessions `{Runtime} (fs : Fs.Disk) :
  sumTotalSessions (CodexAggregates.getProjects fs)
  = Z.of_nat (length (CodexDataProvider.getSessions fs))
  ∧ ∀ p, p ∈ CodexAggregates.getProjects fs →
         CodexProjectInfo.sessions p ≠ []
         ∧ 1 <= CodexProjectInfo.totalSessions p.
Proof.
  split.
  - unfold CodexAggregates.getProjects.
    rewrite (sumTotalSessions_Permutation _ _ (sort_Permutation _ _)).
    by rewrite foldl_groupSession_total.
  - intros p [Hin Hp]%getProjects_elem_of.
    pose proof (sessionsIn_present _ _ Hin) as Hne.
    rewrite Hp. simpl. split; [done|].
    destruct (sessionsIn _ _); [done|simpl; lia].
Qed.

Lemma X21_codex_projects_cover_sessions_witness :
  sumTotalSessions
    (CodexAggregates.getProjects (H := Example.host Example.stats_week)
       Example.disk) = 2.
Proof.
  rewrite (proj1 (X21_codex_projects_cover_sessions
                    (H := Example.host Example.stats_week) Example.disk)).
  by vm_compute.
Defined.

(** The Codex projects come newest first by [lastModified]; the sessions
    of each project are a subsequence of [getSessions], and the
    [lastModified] of a project is never negative and no earlier than the
    date of any of its sessions. *)
Theorem X22_codex_projects_sorted `{Runtime} (fs : Fs.Disk) :
  nonIncreasingBy codexLastModifiedTime (CodexAggregates.getProjects fs)
  ∧ ∀ p, p ∈ CodexAggregates.getProjects fs →
         CodexProjectInfo.sessions p `sublist_of` CodexDataProvider.getSessions fs
         ∧ 0 <= CodexProjectInfo.lastModified p
         ∧ ∀ s t, s ∈ CodexProjectInfo.sessions p → timestampTime s = Some t →
                  t <= CodexProjectInfo.lastModified p.
Proof.
  split.
  - unfold CodexAggregates.getProjects.
    apply (sort_nonIncreasing _ codexLastModifiedTime); [done|].
    apply Forall_forall. intros p _. by eexists.
  - intros p [_ Hp]%getProjects_elem_of. rewrite Hp. simpl. split_and!.
    + apply sublist_filter.
    + apply (foldl_later_ge timestampTime).
    + intros s t. apply (foldl_later_bound timestampTime).
Qed.

Lemma X22_codex_projects_sorted_witness :
  nonIncreasingBy codexLastModifiedTime
    (CodexAggregates.getProjects (H := Example.host Example.stats_week)
       Example.disk)
  ∧ 0 <= CodexProjectInfo.lastModified
           (projectOf (H := Example.host Example.stats_week) "/home/dev/app"
              (CodexDataProvider.getSessions
                 (H := Example.host Example.stats_week) Example.disk)).
Proof.
  destruct (X22_codex_projects_sorted (H := Example.host Example.stats_week)
              Example.disk) as [Hsorted Hall].
  split; [done|]. apply Hall. vm_compute. constructor.
Defined.

(** [getRecentStats] counts every scanned session, never reports more
    recent sessions than sessions, and lists each provider of a session
    exactly once; the empty string is never listed as a provider. *)
Theorem X23_recent_stats `{Runtime} (fs : Fs.Disk) (now : Z) :
  RecentStats.totalSessions (CodexAggregates.getRecentStats fs now)
  = Z.of_nat (length (CodexDataProvider.getSessions fs))
  ∧ 0 <= RecentStats.recentSessions (CodexAggregates.getRecentStats fs now)
      <= RecentStats.totalSessions (CodexAggregates.getRecentStats fs now)
  ∧ NoDup (RecentStats.providers (CodexAggregates.getRecentStats fs now))
  ∧ (∀ x, x ∈ RecentStats.providers (CodexAggregates.getRecentStats fs now)
          ↔ ∃ s, s ∈ CodexDataProvider.getSessions fs
                 ∧ CodexSession.model_provider s = x)
  ∧ "" ∉ RecentStats.providers (CodexAggregates.getRecentStats fs now).
Proof.
  unfold CodexAggregates.getRecentStats. simpl.
  destruct (distinct_spec
              (CodexSession.model_provider <$> CodexDataProvider.getSessions fs))
    as [Hnd Hin].
  assert (∀ x, x ∈ CodexAggregates.distinct
                     (CodexSession.model_provider
                        <$> CodexDataProvider.getSessions fs)
               ↔ ∃ s, s ∈ CodexDataProvider.getSessions fs
                      ∧ CodexSession.model_provider s = x) as Hprov.
  { intros x. rewrite Hin, list_elem_of_fmap. split.
    - intros (s & -> & Hs). by exists s.
    - intros (s & Hs & <-). by exists s. }
  split_and!; [done|lia| |done|done|].
  - pose proof (length_filter
                  (λ s, JS.gt (Date_getTime (CodexSession.timestamp s))
                              (Some (now - 7 * 24 * 60 * 60 * 1000)) = true)
                  (CodexDataProvider.getSessions fs)).
    lia.
  - intros (s & Hs & Hempty)%Hprov.
    apply getSessions_parsedFrom, parseSessionFile_Some in Hs
      as (content & ev & meta & _ & _ & _ & _ & Heq).
    rewrite Heq in Hempty. simpl in Hempty.
    by apply (or_string_default_nonempty (SessionMeta.model_provider meta) "openai").
Qed.

(** ** Ties, and the merged project list of the dashboard *)

Section stability.
Context {A : Type} (comparefn : A → A → JS.number) (key : A → JS.number).
Hypothesis comparefn_key : ∀ a b, comparefn a b = JS.sub (key b) (key a).

Lemma comes_after_keys (x y : A) :
  JS.comes_after comparefn x y = true →
  ∃ a b, key x = Some a ∧ key y = Some b ∧ a < b.
Proof.
  unfold JS.comes_after. rewrite comparefn_key.
  destruct (key y) as [b|], (key x) as [a|]; simpl; try done.
  intros Hlt%bool_decide_eq_true. exists a, b. split_and!; [done..|lia].
Qed.

Lemma sort_insert_ties (t : Z) (x : A) (l : list A) :
  filter (λ a, key a = Some t) (JS.sort_insert comparefn x l)
  = filter (λ a, key a = Some t) (x :: l).
Proof.
  induction l as [|y l IH]; [done|]. simpl.
  destruct (JS.comes_after comparefn x y) eqn:Hxy; [|done].
  apply comes_after_keys in Hxy as (a & b & Hx & Hy & Hlt).
  rewrite (filter_cons _ y), IH, !(filter_cons _ x), (filter_cons _ y).
  destruct (decide (key x = Some t)) as [Hxt|Hxt],
           (decide (key y = Some t)) as [Hyt|Hyt]; try done.
  rewrite Hx in Hxt. rewrite Hy in Hyt. simplify_eq. lia.
Qed.

Lemma sort_ties (t : Z) (l : list A) :
  filter (λ a, key a = Some t) (JS.sort comparefn l)
  = filter (λ a, key a = Some t) l.
Proof.
  induction l as [|x l IH]; [done|]. unfold JS.sort in *. simpl.
  rewrite sort_insert_ties, !(filter_cons _ x), IH. done.
Qed.

End stability.

Section session_ties.
Context `{Runtime}.
Import ClaudeDataProvider.


End session_ties.



(** The merged project list of the dashboard holds every Claude and every
    Codex project once, newest first by [lastModified]; among projects
    with the same date the Claude projects come first, and the projects of
    one source keep the order they were given in. *)
Theorem X25_merged_projects (claudeProjects : list ProjectInfo.t)
    (codexProjects : list CodexProjectInfo.t) :
  DashboardPanel.mergeProjects claudeProjects codexProjects
    ≡ₚ (DashboardPanel.claude <$> claudeProjects)
       ++ (DashboardPanel.codex <$> codexProjects)
  ∧ nonIncreasingBy sortDateTime
      (DashboardPanel.mergeProjects claudeProjects codexProjects)
  ∧ ∀ t,
      filter (λ p, DashboardPanel.sortDate p = t)
        (DashboardPanel.mergeProjects claudeProjects codexProjects)
      = (DashboardPanel.claude
           <$> filter (λ p, ProjectInfo.lastModified p = t) claudeProjects)
        ++ (DashboardPanel.codex
              <$> filter (λ p, CodexProjectInfo.lastModified p = t) codexProjects).
Proof.
  unfold DashboardPanel.mergeProjects. split_and!.
  - apply sort_Permutation.
  - apply (sort_nonIncreasing _ sortDateTime); [done|].
    apply Forall_forall. intros p _. by eexists.
  - intros t.
    assert (∀ l : list DashboardPanel.MergedProject,
              filter (λ p, DashboardPanel.sortDate p = t) l
                 = filter (λ p, sortDateTime p = Some t) l) as Hsame.
    { intros l. apply list_filter_iff. intros p. unfold sortDateTime.
      split; [by intros ->|by intros [= ->]]. }
    rewrite Hsame, (sort_ties _ sortDateTime) by done. rewrite <- Hsame.
    rewrite filter_app. f_equal.
    + induction claudeProjects as [|p l IH]; [done|].
      rewrite fmap_cons, !filter_cons. simpl.
      case_decide; [rewrite fmap_cons|]; by rewrite IH.
    + induction codexProjects as [|p l IH]; [done|].
      rewrite fmap_cons, !filter_cons. simpl.
      case_decide; [rewrite fmap_cons|]; by rewrite IH.
Qed.

(** The dashboard charts at most the last fourteen days: [dailyData] is
    the tail of the daily-activity list, of length fourteen when the list
    is longer, and empty when the stats or the list are missing. *)
Theorem X26_daily_data_tail (stats : option ClaudeStats.t) :
  (length (DashboardPanel.dailyData stats) ≤ 14)%nat
  ∧ (∀ st l, stats = Some st → ClaudeStats.dailyActivity st = Some l →
             DashboardPanel.dailyData stats = drop (length l - 14) l)
  ∧ (stats ≫= ClaudeStats.dailyActivity = None →
     DashboardPanel.dailyData stats = []).
Proof.
  split_and!.
  - unfold DashboardPanel.dailyData.
    destruct (stats ≫= ClaudeStats.dailyActivity) as [l|]; [|simpl; lia].
    change (JS.slice (-14) l) with (JS.slice (Z.opp 14) l).
    rewrite slice_last by lia. rewrite length_drop. lia.
  - intros st l -> Hl. unfold DashboardPanel.dailyData. simpl. rewrite Hl.
    change (JS.slice (-14) l) with (JS.slice (Z.opp 14) l).
    by rewrite slice_last by lia.
  - intros Hnone. unfold DashboardPanel.dailyData. by rewrite Hnone.
Qed.

Lemma X26_daily_data_tail_witness :
  DashboardPanel.dailyData (Some Example.stats_week)
  = [Example.day "2024-01-01" 3 1 0; Example.day "2024-01-02" 5 1 2;
     Example.day "2024-01-03" 8 2 4; Example.day "2024-01-04" 2 1 1;
     Example.day "2024-01-05" 7 2 3].
Proof.
  rewrite (proj1 (proj2 (X26_daily_data_tail (Some Example.stats_week)))
             Example.stats_week _ eq_refl eq_refl).
  by vm_compute.
Defined.
